(** * Accessibility audit service (index.js): a shallow embedding

    The service of [index.js] is sequential glue around two external
    collaborators: the [lighthouse] command line tool, reached through
    [child_process.exec] and a report file, and a text generation endpoint,
    reached through [fetch].  This development embeds

    - the JavaScript values the handler manipulates (values produced by
      [JSON.parse], numbers as IEEE 754 binary64 floats);
    - the language operations the handler relies on (truthiness, property
      access and optional chaining, [ToString], [ToNumber],
      [JSON.stringify], the three regular expression replacements);
    - the handler of [POST /runaudit] and [analyzeWithAI], in a state and
      exception monad over an abstract outside world;

    and proves properties of the handler.

    Strings are sequences of bytes holding UTF-8 text.  Every pattern the
    source matches is ASCII, so matching and replacing bytes agrees with
    matching and replacing UTF-16 code units.  Console output is not
    modelled. *)

From Stdlib Require Import Floats ZArith Lia List String Ascii Bool Arith.
From Stdlib Require Import DecimalString Uint63 SpecFloat.
Import ListNotations.

Set Warnings "-inexact-float,-register-all".

Local Open Scope list_scope.
Local Open Scope string_scope.

(** ** JavaScript values *)

Module JS.

(** Values as [JSON.parse] builds them, plus [undefined].  An object is the
    list of its own enumerable string-keyed properties in property
    enumeration order (the order [Object.values] follows); [JSON.parse]
    never yields two properties with one key. *)
Inductive JSValue : Type :=
| JSUndefined
| JSNull
| JSBool (b : bool)
| JSNumber (x : float)
| JSString (s : string)
| JSArray (elems : list JSValue)
| JSObject (props : list (string * JSValue)).

(** Thrown values.  [TypeError] is what the language raises on a property
    read from [undefined]/[null], a call of a non-function, or a failed
    conversion; [ApiError] is the [Error] built by [analyzeWithAI];
    [ExternalError] is anything an outside collaborator raises or rejects
    with. *)
Inductive Exn : Type :=
| TypeError
| ApiError (message : string)
| ExternalError (what : string).

Inductive Result (A : Type) : Type :=
| Ok (a : A)
| Throw (e : Exn).
Arguments Ok {A} a.
Arguments Throw {A} e.

Definition rbind {A B} (r : Result A) (k : A -> Result B) : Result B :=
  match r with
  | Ok a => k a
  | Throw e => Throw e
  end.

Section ResultLists.
Context {A B : Type}.
Variable f : A -> Result B.
Variable p : A -> Result bool.

(** [l.map(f)] for an [f] that may raise: the first exception wins. *)
Fixpoint rmapM (l : list A) : Result (list B) :=
  match l with
  | [] => Ok []
  | a :: l' =>
      rbind (f a) (fun b => rbind (rmapM l') (fun bs => Ok (b :: bs)))
  end.

(** [l.filter(p)] for a [p] that may raise. *)
Fixpoint rfilterM (l : list A) : Result (list A) :=
  match l with
  | [] => Ok []
  | a :: l' =>
      rbind (p a) (fun keep =>
      rbind (rfilterM l') (fun rest =>
      Ok (if keep then a :: rest else rest)))
  end.
End ResultLists.

(** [dq] is the double quote character as a string. *)
Definition dq : string := String "034"%char EmptyString.
Definition nl : string := String "010"%char EmptyString.

(** *** Truthiness, nullishness, strict equality with a number *)

Definition number_truthy (x : float) : bool :=
  negb (PrimFloat.eqb x 0%float || PrimFloat.is_nan x).

Definition truthy (v : JSValue) : bool :=
  match v with
  | JSUndefined | JSNull => false
  | JSBool b => b
  | JSNumber x => number_truthy x
  | JSString s => negb (String.eqb s "")
  | JSArray _ | JSObject _ => true
  end.

Definition nullish (v : JSValue) : bool :=
  match v with
  | JSUndefined | JSNull => true
  | _ => false
  end.

(** [a || b] *)
Definition js_or (a b : JSValue) : JSValue := if truthy a then a else b.

(** [v === 0]: only a number compares equal to a number, by IEEE equality
    (so [-0 === 0], and [NaN] equals nothing). *)
Definition strict_eq_zero (v : JSValue) : bool :=
  match v with
  | JSNumber x => PrimFloat.eqb x 0%float
  | _ => false
  end.

(** *** Property access *)

Fixpoint assoc (k : string) (ps : list (string * JSValue)) : JSValue :=
  match ps with
  | [] => JSUndefined
  | (k', v) :: ps' => if String.eqb k k' then v else assoc k ps'
  end.

Definition has_own (k : string) (v : JSValue) : bool :=
  match v with
  | JSObject ps => existsb (fun kv => String.eqb k (fst kv)) ps
  | _ => false
  end.

(** [v.k] for a value [v] that is neither [undefined] nor [null], and a name
    [k] that no prototype defines (every name the handler reads but
    [length], [map] and [replace], which are treated where they occur).
    Arrays, strings, numbers and booleans have no such property. *)
Definition prop (v : JSValue) (k : string) : JSValue :=
  match v with
  | JSObject ps => assoc k ps
  | _ => JSUndefined
  end.

(** [v.k], raising on [undefined] and [null]. *)
Definition Get (v : JSValue) (k : string) : Result JSValue :=
  if nullish v then Throw TypeError else Ok (prop v k).

(** [v?.k], the rest of the optional chain being [rest]: a nullish [v]
    short-circuits the whole chain to [undefined]. *)
Definition opt_chain (v : JSValue) (rest : JSValue -> Result JSValue)
  : Result JSValue :=
  if nullish v then Ok JSUndefined else rest v.

Definition first_char (s : string) : JSValue :=
  match s with
  | EmptyString => JSUndefined
  | String c _ => JSString (String c EmptyString)
  end.

(** [v[0]], raising on [undefined] and [null].  On a string the source only
    ever reads a named property from the result, which is [undefined] for
    every string; the first byte stands for the first code unit. *)
Definition Get0 (v : JSValue) : Result JSValue :=
  match v with
  | JSUndefined | JSNull => Throw TypeError
  | JSArray l => Ok (nth 0 l JSUndefined)
  | JSString s => Ok (first_char s)
  | JSObject ps => Ok (assoc "0" ps)
  | _ => Ok JSUndefined
  end.

Definition float_of_nat (n : nat) : float :=
  PrimFloat.of_uint63 (Uint63.of_Z (Z.of_nat n)).

(** Number of UTF-16 code units of UTF-8 text: one per byte that is not a
    continuation byte, and one more per four-byte sequence. *)
Fixpoint utf16_length (s : string) : nat :=
  match s with
  | EmptyString => 0
  | String c s' =>
      let n := nat_of_ascii c in
      ((if (n <? 128) || (192 <=? n) then 1 else 0)
       + (if 240 <=? n then 1 else 0) + utf16_length s')%nat
  end.

(** [v.length] for a non-nullish [v]. *)
Definition length_of (v : JSValue) : JSValue :=
  match v with
  | JSArray l => JSNumber (float_of_nat (List.length l))
  | JSString s => JSNumber (float_of_nat (utf16_length s))
  | JSObject ps => assoc "length" ps
  | _ => JSUndefined
  end.

(** [Object.values(v)].  The characters of a string stand one per byte; the
    source filters them all out, a string having no [score]. *)
Fixpoint chars (s : string) : list JSValue :=
  match s with
  | EmptyString => []
  | String c s' => JSString (String c EmptyString) :: chars s'
  end.

Definition Object_values (v : JSValue) : Result (list JSValue) :=
  match v with
  | JSUndefined | JSNull => Throw TypeError
  | JSObject ps => Ok (map snd ps)
  | JSArray l => Ok l
  | JSString s => Ok (chars s)
  | _ => Ok []
  end.

Definition Array_isArray (v : JSValue) : bool :=
  match v with
  | JSArray _ => true
  | _ => false
  end.

(** *** String operations of the source *)

Definition string_of_nat (n : nat) : string :=
  NilEmpty.string_of_uint (Nat.to_uint n).

Definition string_of_N (n : N) : string :=
  NilEmpty.string_of_uint (N.to_uint n).

Fixpoint drop (n : nat) (s : string) : string :=
  match n, s with
  | O, _ => s
  | S n', String _ s' => drop n' s'
  | S _, EmptyString => EmptyString
  end.

(** [s.replace(/https?:\/\//, "")]: the leftmost match only. *)
Fixpoint remove_scheme (s : string) : string :=
  if String.prefix "https://" s then drop 8 s
  else if String.prefix "http://" s then drop 7 s
  else match s with
       | EmptyString => EmptyString
       | String c s' => String c (remove_scheme s')
       end.

(** [s.replace(/\//g, "_")] *)
Fixpoint slashes_to_underscores (s : string) : string :=
  match s with
  | EmptyString => EmptyString
  | String c s' =>
      String (if Ascii.eqb c "/"%char then "_"%char else c)
             (slashes_to_underscores s')
  end.

Definition fence : string := "```".
Definition fence_html : string := "```html".

(** [s.replace(/```html|```/g, "")]: matches are found left to right and do
    not overlap; at one position the first alternative is tried first.
    [skip] counts the bytes of the current match still to be dropped. *)
Fixpoint strip_from (skip : nat) (s : string) : string :=
  match s with
  | EmptyString => EmptyString
  | String c s' =>
      match skip with
      | S k => strip_from k s'
      | O =>
          if String.prefix fence_html s then strip_from 6 s'
          else if String.prefix fence s then strip_from 2 s'
          else String c (strip_from 0 s')
      end
  end.

Definition strip_fences (s : string) : string := strip_from 0 s.

(** [s.includes(p)]: [p] occurs somewhere in [s]. *)
Fixpoint contains (p s : string) : bool :=
  match s with
  | EmptyString => String.prefix p EmptyString
  | String _ s' => String.prefix p s || contains p s'
  end.

(** *** JSON text *)

Definition hex_digit (n : nat) : string :=
  String.substring n 1 "0123456789abcdef".

(** One byte of a string inside [QuoteJSONString]. *)
Definition quote_byte (c : ascii) : string :=
  let n := nat_of_ascii c in
  if (n =? 8)%nat then "\b"
  else if (n =? 9)%nat then "\t"
  else if (n =? 10)%nat then "\n"
  else if (n =? 12)%nat then "\f"
  else if (n =? 13)%nat then "\r"
  else if (n =? 34)%nat then "\" ++ dq
  else if (n =? 92)%nat then "\\"
  else if (n <? 32)%nat then "\u00" ++ hex_digit (n / 16)%nat ++ hex_digit (n mod 16)%nat
  else String c EmptyString.

Fixpoint quote_bytes (s : string) : string :=
  match s with
  | EmptyString => EmptyString
  | String c s' => quote_byte c ++ quote_bytes s'
  end.

Definition QuoteJSONString (s : string) : string := dq ++ quote_bytes s ++ dq.

(** The text of an array or object with members [partial], at indentation
    [stepback], its members at indentation [indent]. *)
Definition json_wrap (open close gap stepback indent : string)
    (partial : list string) : string :=
  match partial with
  | [] => open ++ close
  | _ =>
      if String.eqb gap "" then open ++ String.concat "," partial ++ close
      else open ++ nl ++ indent
           ++ String.concat ("," ++ nl ++ indent) partial
           ++ nl ++ stepback ++ close
  end.

Section Builtins.
(** [Number::toString] and [StringToNumber] of the language, not
    reimplemented here. *)
Variable Number_toString : float -> string.
Variable StringToNumber : string -> float.

(** [ToString(v)], as a template literal applies it.  An array joins its
    elements with commas, [undefined] and [null] elements giving the empty
    string.  A plain object gives ["[object Object]"] unless it has an own
    property [toString]: coming from JSON that property is not callable,
    and neither it nor [valueOf] then yields a primitive. *)
Fixpoint ToString (v : JSValue) : Result string :=
  match v with
  | JSUndefined => Ok "undefined"
  | JSNull => Ok "null"
  | JSBool true => Ok "true"
  | JSBool false => Ok "false"
  | JSNumber x => Ok (Number_toString x)
  | JSString s => Ok s
  | JSArray l =>
      rbind (rmapM (fun e => if nullish e then Ok "" else ToString e) l)
            (fun parts => Ok (String.concat "," parts))
  | JSObject ps =>
      if existsb (fun kv => String.eqb "toString" (fst kv)) ps
      then Throw TypeError
      else Ok "[object Object]"
  end.

(** [ToNumber(v)], as [*] applies it to its operands.  Arrays and objects
    go through the same primitive conversion as [ToString]. *)
Definition ToNumber (v : JSValue) : Result float :=
  match v with
  | JSUndefined => Ok PrimFloat.nan
  | JSNull => Ok 0%float
  | JSBool true => Ok 1%float
  | JSBool false => Ok 0%float
  | JSNumber x => Ok x
  | JSString s => Ok (StringToNumber s)
  | JSArray _ | JSObject _ =>
      rbind (ToString v) (fun s => Ok (StringToNumber s))
  end.

(** [SerializeJSONProperty]: [None] is [undefined] (nothing to write). *)
Fixpoint SerializeJSONProperty (gap indent : string) (v : JSValue)
  : option string :=
  match v with
  | JSUndefined => None
  | JSNull => Some "null"
  | JSBool true => Some "true"
  | JSBool false => Some "false"
  | JSNumber x =>
      Some (if PrimFloat.is_finite x then Number_toString x else "null")
  | JSString s => Some (QuoteJSONString s)
  | JSArray l =>
      let inner := indent ++ gap in
      Some (json_wrap "[" "]" gap indent inner
              (map (fun e =>
                      match SerializeJSONProperty gap inner e with
                      | Some s => s
                      | None => "null"
                      end) l))
  | JSObject ps =>
      let inner := indent ++ gap in
      Some (json_wrap "{" "}" gap indent inner
              (flat_map (fun kv =>
                           match kv with
                           | (k, v') =>
                               match SerializeJSONProperty gap inner v' with
                               | Some s =>
                                   [QuoteJSONString k ++ ":"
                                    ++ (if String.eqb gap "" then ""
                                        else " ") ++ s]
                               | None => []
                               end
                           end) ps))
  end.

(** [JSON.stringify(v)] and [JSON.stringify(v, null, 2)]; the result is a
    string or [undefined]. *)
Definition of_option_string (o : option string) : JSValue :=
  match o with
  | Some s => JSString s
  | None => JSUndefined
  end.

Definition JSON_stringify (v : JSValue) : JSValue :=
  of_option_string (SerializeJSONProperty "" "" v).

Definition JSON_stringify_2 (v : JSValue) : JSValue :=
  of_option_string (SerializeJSONProperty "  " "" v).
End Builtins.

End JS.

(** ** Binary64 arithmetic: the product of a number of [0, 1] by 100

    The primitive floats are specified by [SpecFloat]; the lemmas below
    follow a product through its rounding to show that it stays within
    [0, 100]. *)

Module Binary64.
Import JS.
Local Open Scope Z_scope.

(** [x * 100 || 0] on numbers. *)
Definition scaled (x : float) : float :=
  if number_truthy (x * 100)%float then (x * 100)%float else 0%float.

(** [bound e] is the mantissa of 100 at exponent [e]: [bound e * 2^e = 100]. *)
Definition bound (e : Z) : Z := 100 * 2 ^ (- e).

Lemma shr_1_m r : 0 <= shr_m r -> shr_m (shr_1 r) = shr_m r / 2.
Proof.
  destruct r as [m rb sb]. simpl. intros Hm.
  destruct m as [|p|p]; [reflexivity| |lia].
  destruct p as [p|p|]; simpl shr_m.
  - rewrite Pos2Z.inj_xI. apply Z.div_unique with (r := 1); lia.
  - rewrite Pos2Z.inj_xO. apply Z.div_unique with (r := 0); lia.
  - reflexivity.
Qed.

Lemma shr_1_nonneg r : 0 <= shr_m r -> 0 <= shr_m (shr_1 r).
Proof. intros Hr. rewrite shr_1_m by exact Hr. apply Z.div_pos; lia. Qed.

Lemma pow2_xI p : 2 ^ Z.pos p~1 = 2 * (2 ^ Z.pos p * 2 ^ Z.pos p).
Proof.
  rewrite (Pos2Z.inj_xI p).
  replace (2 * Z.pos p + 1) with (1 + Z.pos p + Z.pos p) by lia.
  rewrite Z.pow_add_r by lia. rewrite Z.pow_add_r by lia.
  rewrite Z.pow_1_r. lia.
Qed.

Lemma pow2_xO p : 2 ^ Z.pos p~0 = 2 ^ Z.pos p * 2 ^ Z.pos p.
Proof.
  rewrite (Pos2Z.inj_xO p).
  replace (2 * Z.pos p) with (Z.pos p + Z.pos p) by lia.
  rewrite Z.pow_add_r by lia. reflexivity.
Qed.

Lemma iter_shr_1_m : forall p r,
  0 <= shr_m r ->
  0 <= shr_m (iter_pos shr_1 p r)
  /\ shr_m (iter_pos shr_1 p r) = shr_m r / 2 ^ Zpos p.
Proof.
  induction p as [p IH|p IH|]; intros r Hr; simpl iter_pos.
  - destruct (IH (shr_1 r) (shr_1_nonneg r Hr)) as [Hn1 He1].
    destruct (IH _ Hn1) as [Hn2 He2].
    split; [exact Hn2|].
    rewrite He2, He1, shr_1_m, pow2_xI by exact Hr.
    rewrite !Z.div_div by lia. reflexivity.
  - destruct (IH r Hr) as [Hn1 He1].
    destruct (IH _ Hn1) as [Hn2 He2].
    split; [exact Hn2|].
    rewrite He2, He1, pow2_xO.
    rewrite !Z.div_div by lia. reflexivity.
  - split; [apply shr_1_nonneg; exact Hr|].
    rewrite shr_1_m by exact Hr. reflexivity.
Qed.

Lemma shr_spec r e n :
  0 <= shr_m r ->
  shr r e n = (fst (shr r e n), e + Z.max n 0)
  /\ shr_m (fst (shr r e n)) = shr_m r / 2 ^ Z.max n 0.
Proof.
  intros Hr. unfold shr. destruct n as [|p|p]; simpl fst.
  - rewrite Z.add_0_r. split; [reflexivity|]. simpl. rewrite Z.div_1_r. reflexivity.
  - split; [f_equal; lia|]. rewrite Z.max_l by lia. apply iter_shr_1_m. exact Hr.
  - split; [f_equal; lia|]. rewrite Z.max_r by lia. simpl. rewrite Z.div_1_r. reflexivity.
Qed.

Lemma digits2_pos_bounds p :
  2 ^ (Zpos (digits2_pos p) - 1) <= Zpos p < 2 ^ Zpos (digits2_pos p).
Proof.
  induction p as [p IH|p IH|]; simpl digits2_pos.
  - rewrite (Pos2Z.inj_succ (digits2_pos p)), (Pos2Z.inj_xI p).
    replace (Z.succ (Z.pos (digits2_pos p)) - 1)
      with (Z.succ (Z.pos (digits2_pos p) - 1)) by lia.
    rewrite (Z.pow_succ_r 2 (Z.pos (digits2_pos p) - 1)) by lia.
    rewrite (Z.pow_succ_r 2 (Z.pos (digits2_pos p))) by lia. lia.
  - rewrite (Pos2Z.inj_succ (digits2_pos p)), (Pos2Z.inj_xO p).
    replace (Z.succ (Z.pos (digits2_pos p)) - 1)
      with (Z.succ (Z.pos (digits2_pos p) - 1)) by lia.
    rewrite (Z.pow_succ_r 2 (Z.pos (digits2_pos p) - 1)) by lia.
    rewrite (Z.pow_succ_r 2 (Z.pos (digits2_pos p))) by lia. lia.
  - simpl. lia.
Qed.

Lemma Zdigits2_le m k : 0 <= m -> 0 <= k -> m < 2 ^ k -> Zdigits2 m <= k.
Proof.
  intros Hm Hk Hlt. destruct m as [|p|p]; [simpl; lia| |lia].
  simpl. pose proof (digits2_pos_bounds p) as [Hlo _].
  assert (H : 2 ^ (Zpos (digits2_pos p) - 1) < 2 ^ k) by lia.
  apply Z.pow_lt_mono_r_iff in H; lia.
Qed.

(** The mantissa of the float 100, whose exponent is -46. *)
Definition hundred_m : positive := 7036874417766400.

Lemma pow2_pos k : 0 <= k -> 0 < 2 ^ k.
Proof. intros Hk. apply Z.pow_pos_nonneg; lia. Qed.

Lemma bound_shift e k : 0 <= k -> e + k <= 0 -> bound e = 2 ^ k * bound (e + k).
Proof.
  intros Hk He. unfold bound.
  replace (- e) with (k + - (e + k)) by lia.
  rewrite Z.pow_add_r by lia. lia.
Qed.

Lemma bound_digits m e :
  0 <= m -> e <= -46 -> m <= bound e -> Zdigits2 m + e <= 7.
Proof.
  intros Hm He Hb.
  assert (H : Zdigits2 m <= 7 - e).
  { apply Zdigits2_le; [exact Hm | lia |].
    replace (7 - e) with (7 + - e) by lia.
    rewrite Z.pow_add_r by lia. unfold bound in Hb.
    pose proof (pow2_pos (- e)). change (2 ^ 7) with 128. lia. }
  lia.
Qed.

Lemma fexp_small d : d <= 7 -> fexp prec emax d <= -46.
Proof. unfold fexp, emin, prec, emax. lia. Qed.

Lemma shr_record_of_loc_m m l : shr_m (shr_record_of_loc m l) = m.
Proof. destruct l as [|[]]; reflexivity. Qed.

Lemma shr_fexp_bound m e l :
  0 <= m -> e <= -46 -> m <= bound e ->
  exists r e',
    shr_fexp prec emax m e l = (r, e')
    /\ 0 <= shr_m r /\ e' <= -46 /\ shr_m r <= bound e'
    /\ (m < bound e -> shr_m r < bound e').
Proof.
  intros Hm He Hb. unfold shr_fexp.
  set (n := fexp prec emax (Zdigits2 m + e) - e).
  set (r0 := shr_record_of_loc m l).
  assert (Hr0 : shr_m r0 = m) by apply shr_record_of_loc_m.
  destruct (shr_spec r0 e n) as [Hshr Hq]; [lia|].
  exists (fst (shr r0 e n)), (e + Z.max n 0).
  split; [exact Hshr|]. rewrite Hq, Hr0.
  set (k := Z.max n 0).
  assert (Hk : 0 <= k) by lia.
  assert (He' : e + k <= -46).
  { destruct (Z.le_gt_cases n 0) as [Hn|Hn]; [lia|].
    replace (e + k) with (fexp prec emax (Zdigits2 m + e)) by lia.
    apply fexp_small. apply bound_digits; assumption. }
  pose proof (pow2_pos k Hk) as Hpow.
  rewrite (bound_shift e k Hk) in * by lia.
  split; [apply Z.div_pos; lia|]. split; [exact He'|]. split.
  - apply Z.div_le_upper_bound; [exact Hpow | exact Hb].
  - intros Hlt. apply Z.div_lt_upper_bound; [exact Hpow | exact Hlt].
Qed.

Lemma rne_bounds q l : q <= round_nearest_even q l <= q + 1.
Proof.
  destruct l as [|[]]; simpl; try destruct (Z.even q); lia.
Qed.

(** A specification float between 0 and 100: a zero, or positive and finite. *)
Definition in_0_100 (f : spec_float) : Prop :=
  SFleb (S754_zero false) f = true
  /\ SFleb f (S754_finite false hundred_m (-46)) = true
  /\ ((exists s, f = S754_zero s) \/ exists m e, f = S754_finite false m e).

Lemma round_below_100 M E :
  0 < M -> E <= -46 -> M < bound E ->
  in_0_100 (binary_round_aux prec emax false M E loc_Exact).
Proof.
  intros HM HE Hb. unfold binary_round_aux.
  destruct (shr_fexp_bound M E loc_Exact) as (r1 & e1 & -> & Hr1 & He1 & _ & Hlt1);
    [lia | exact HE | lia |].
  specialize (Hlt1 Hb).
  pose proof (rne_bounds (shr_m r1) (loc_of_shr_record r1)) as Hrne.
  set (m1 := round_nearest_even (shr_m r1) (loc_of_shr_record r1)) in *.
  destruct (shr_fexp_bound m1 e1 loc_Exact) as (r2 & e2 & -> & Hr2 & He2 & Hle2 & _);
    [lia | exact He1 | lia |].
  destruct (shr_m r2) as [|p|p]; [| |lia].
  - repeat split. left. exists false. reflexivity.
  - assert (Hmax : Z.leb e2 (emax - prec) = true).
    { apply Z.leb_le. unfold emax, prec. lia. }
    rewrite Hmax. unfold in_0_100. split; [reflexivity|]. split.
    + unfold SFleb, SFcompare.
      destruct (Z.compare_spec e2 (-46)) as [Heq|Hlt|Hgt]; [|reflexivity|lia].
      subst e2. rewrite Pos.compare_cont_spec. simpl.
      change (bound (-46)) with (Zpos hundred_m) in Hle2.
      destruct (Pos.compare_spec p hundred_m); try reflexivity. lia.
    + right. exists p, e2. reflexivity.
Qed.

Local Open Scope float_scope.

Lemma number_truthy_spec y :
  number_truthy y
  = negb (SFeqb (Prim2SF y) (S754_zero false)
          || negb (SFeqb (Prim2SF y) (Prim2SF y))).
Proof.
  unfold number_truthy, is_nan. rewrite !FloatAxioms.eqb_spec. reflexivity.
Qed.

Lemma SFeqb_finite_refl s m e :
  SFeqb (S754_finite s m e) (S754_finite s m e) = true.
Proof.
  unfold SFeqb, SFcompare. rewrite Z.compare_refl, Pos.compare_cont_refl.
  destruct s; reflexivity.
Qed.

(** A float whose specification lies in [0, 100] scales to itself or to 0. *)
Lemma in_0_100_truthy y :
  in_0_100 (Prim2SF y) ->
  (0 <=? (if number_truthy y then y else 0)) = true
  /\ ((if number_truthy y then y else 0) <=? 100) = true.
Proof.
  intros (H0 & H100 & Hshape). rewrite number_truthy_spec.
  destruct Hshape as [[s Hz] | (m & e & Hf)].
  - rewrite Hz. split; reflexivity.
  - rewrite Hf, SFeqb_finite_refl. simpl negb.
    rewrite !FloatAxioms.leb_spec. split; assumption.
Qed.

Lemma canonical_digits m e :
  canonical_mantissa prec emax m e = true ->
  Zpos (digits2_pos m) <= 53 /\ (-1074 <= e)%Z
  /\ (e = (-52)%Z -> Zpos (digits2_pos m) = 53%Z).
Proof.
  unfold canonical_mantissa, fexp, emin, prec, emax. intros H.
  apply Z.eqb_eq in H. lia.
Qed.

(** For [x] in [0, 1], [x * 100 || 0] lies in [0, 100]. *)
Lemma scaled_range x :
  (0 <=? x) = true -> (x <=? 1) = true ->
  (0 <=? scaled x) = true /\ (scaled x <=? 100) = true.
Proof.
  intros H0 H1. unfold scaled. apply in_0_100_truthy.
  rewrite FloatAxioms.leb_spec in H0, H1. rewrite FloatAxioms.mul_spec.
  pose proof (Prim2SF_valid x) as Hv.
  change (Prim2SF 0) with (S754_zero false) in H0.
  change (Prim2SF 1) with (S754_finite false 4503599627370496 (-52)) in H1.
  change (Prim2SF 100) with (S754_finite false hundred_m (-46)).
  destruct (Prim2SF x) as [s|s| |s m e].
  - destruct s; repeat split; left; eexists; reflexivity.
  - destruct s; discriminate.
  - discriminate.
  - destruct s; [discriminate H0|].
    simpl in Hv. apply andb_true_iff in Hv. destruct Hv as [Hc _].
    apply canonical_digits in Hc. destruct Hc as (Hd & Hemin & H52).
    pose proof (digits2_pos_bounds m) as [Hlo Hhi].
    unfold SFleb, SFcompare in H1.
    destruct (Z.compare_spec e (-52)) as [He|He|He]; [| |discriminate H1].
    + (* the mantissa of a canonical float of exponent -52 that is at most
         2^52 is 2^52: x is 1 *)
      rewrite Pos.compare_cont_spec in H1. simpl in H1.
      assert (Hm : m = 4503599627370496%positive).
      { rewrite (H52 He) in Hlo.
        change (2 ^ (53 - 1))%Z with 4503599627370496%Z in Hlo.
        destruct (Pos.compare_spec m 4503599627370496) as [Heq|Hlt|Hgt].
        - exact Heq.
        - exfalso. apply Pos2Z.pos_lt_pos in Hlt. clear - Hlt Hlo. lia.
        - discriminate H1. }
      subst m e. vm_compute.
      repeat split; right; eexists; eexists; reflexivity.
    + (* x < 1: the exact product is below 100 *)
      unfold SF64mul, SFmul. simpl xorb.
      apply round_below_100; [lia | lia |].
      unfold bound.
      assert (Hm : (Zpos m < 2 ^ 53)%Z).
      { eapply Z.lt_le_trans; [exact Hhi|]. apply Z.pow_le_mono_r; lia. }
      assert (Hp : (2 ^ 99 <= 2 ^ (- (e + -46)))%Z).
      { apply Z.pow_le_mono_r; lia. }
      rewrite Pos2Z.inj_mul.
      change (Z.pos hundred_m) with (100 * 2 ^ 46)%Z.
      change (2 ^ 99)%Z with (2 ^ 53 * 2 ^ 46)%Z in Hp.
      pose proof (pow2_pos 46). pose proof (pow2_pos 53).
      nia.
Qed.

End Binary64.

(** ** The service *)

Module Audit.
Import JS.

(** What [fetch] resolves with: the fields the source reads, and what
    [response.json()] resolves or rejects with. *)
Record FetchResponse : Type := {
  ok : bool;
  status : nat;
  statusText : string;
  json : Result JSValue
}.

Record Request : Type := {
  method : string;
  body : JSValue
}.

(** [res.status(code).json(payload)]; [res.json] alone answers 200. *)
Record Response : Type := {
  code : nat;
  payload : JSValue
}.

(** The [config] argument of [runLighthouse]; [None] is an absent field. *)
Record Config : Type := {
  output : option (list string);
  categories : option (list string);
  chromeFlags : option (list string);
  maxWaitForLoad : option N;
  outputPath : string
}.

Definition default {A} (o : option A) (d : A) : A :=
  match o with
  | Some a => a
  | None => d
  end.

(** [l.map((x, i) => ...)]: every element with its index. *)
Definition indexed {A} (l : list A) : list (nat * A) :=
  combine (seq 0 (List.length l)) l.

(** The receiver of [.replace(...)]: a string has the method; no other value
    built from JSON has a callable [replace]. *)
Definition replace_receiver (v : JSValue) : Result string :=
  match v with
  | JSString s => Ok s
  | _ => Throw TypeError
  end.

(** The receiver of [.map(...)]: an array has the method; on [undefined] and
    [null] the property read raises, on anything else the call does. *)
Definition map_receiver (v : JSValue) : Result (list JSValue) :=
  match v with
  | JSArray l => Ok l
  | _ => Throw TypeError
  end.

(** The elements a [for ... of] loop visits, for an array. *)
Definition elements (v : JSValue) : list JSValue :=
  match v with
  | JSArray l => l
  | _ => []
  end.

Definition failure_text : string := "AI analysis failed.".

Definition testInputs : JSValue :=
  JSObject
    [("urls",
      JSArray
        [JSString "https://workspace.google.com/intl/en_au/lp/gmail-au/index.html";
         JSString "https://workspace.google.com/intl/en_in/lp/gmail-in/index.html";
         JSString "https://workspace.google.com/intl/es_ALL/"])].

Section Service.

(** *** The outside world *)

Variable World : Type.

(** A computation reads and changes the world, and returns or raises. *)
Definition M (A : Type) : Type := World -> Result A * World.

Definition ret {A} (a : A) : M A := fun w => (Ok a, w).
Definition throw {A} (e : Exn) : M A := fun w => (Throw e, w).
Definition bind {A B} (c : M A) (k : A -> M B) : M B :=
  fun w =>
    match c w with
    | (Ok a, w') => k a w'
    | (Throw e, w') => (Throw e, w')
    end.
Definition lift {A} (r : Result A) : M A := fun w => (r, w).
(** [try { c } catch (error) { h error }] *)
Definition try_catch {A} (c : M A) (h : Exn -> M A) : M A :=
  fun w =>
    match c w with
    | (Ok a, w') => (Ok a, w')
    | (Throw e, w') => h e w'
    end.

Notation "x <- c ;; k" := (bind c (fun x => k))
  (at level 100, c at next level, right associativity).
Notation "x <~ r ;; k" := (rbind r (fun x => k))
  (at level 100, r at next level, right associativity).

(** [exec(cmd, callback)] wrapped in a promise: resolves, or rejects with
    the error the callback received. *)
Variable exec : string -> M unit.
(** [fs.readFileSync(path, "utf-8")] *)
Variable readFileSync : string -> M string.
(** [JSON.parse] *)
Variable JSON_parse : string -> Result JSValue.
(** [fetch(url, options)] *)
Variable fetch : string -> JSValue -> M FetchResponse.
(** [path.join] *)
Variable path_join : string -> string -> string.
(** [process.cwd()] at start-up *)
Variable rootPath : string.
Variable Number_toString : float -> string.
Variable StringToNumber : string -> float.

Let ToString := JS.ToString Number_toString.
Let ToNumber := JS.ToNumber Number_toString StringToNumber.
Let JSON_stringify := JS.JSON_stringify Number_toString.
Let JSON_stringify_2 := JS.JSON_stringify_2 Number_toString.

Definition outputDir : string := rootPath ++ "public/lighthouse-reports".

(** *** runLighthouse *)

Definition lighthouse_cmd (url : string) (config : Config) : string :=
  let categories := default (categories config) ["accessibility"] in
  let chromeFlags :=
    default (chromeFlags config) ["--headless"; "--no-sandbox"] in
  let maxWaitForLoad := default (maxWaitForLoad config) 60000%N in
  let categoriesOptions :=
    String.concat " " (map (fun c => "--only-categories=" ++ c) categories) in
  let chromeFlagsOptions :=
    String.concat " "
      (map (fun f => "--chrome-flags=" ++ dq ++ f ++ dq) chromeFlags) in
  "lighthouse " ++ url ++ " " ++ categoriesOptions
    ++ " --quiet --output=json --output-path=" ++ outputPath config
    ++ " " ++ chromeFlagsOptions
    ++ " --max-wait-for-load=" ++ string_of_N maxWaitForLoad.

Definition runLighthouse (url : string) (config : Config) : M unit :=
  exec (lighthouse_cmd url config).

(** *** analyzeWithAI *)

Definition generation_url (apiKey : string) : string :=
  "https://generativelanguage.googleapis.com/v1beta/models/gemini-2.0-flash:generateContent?key="
    ++ apiKey.

(** The text of the prompt template before [${issues}], line by line. *)
Definition prompt_lines : list string :=
  ["";
   "      You are an expert UI/Accessibility engineer. Suggest specific HTML/CSS/ARIA fixes for the accessibility issues found.";
   "";
   "      Return output ONLY in clean HTML using TailwindCSS classes.  ";
   "      Strictly follow this structure for every issue:";
   "";
   "      <div class=" ++ dq ++ "issue-card" ++ dq ++ ">";
   "        <p class=" ++ dq ++ "issue-title" ++ dq ++ ">[Serial No]: [Issue Title]</p>";
   "        <p class=" ++ dq ++ "issue-solution" ++ dq ++ ">";
   "          <span class=" ++ dq ++ "strong" ++ dq ++ ">Solution:</span> [Fix for the issue, ideally with updated HTML wrapped in <code class=" ++ dq ++ "code-block" ++ dq ++ ">...</code> blocks]";
   "        </p>";
   "      </div>";
   "";
   "      Constraints:";
   "      - Do NOT add any pre-text or explanation.";
   "      - Only generate the HTML output for each issue in the above structure.";
   "      - Wrap any code in <code> blocks with Tailwind styling as shown.";
   "      - If not enough context, just return:  ";
   "      <div class=" ++ dq ++ "issue-card" ++ dq ++ ">";
   "        <p class=" ++ dq ++ "issue-title error-text" ++ dq ++ ">[Serial No]: [Issue Title]</p>";
   "        <p class=" ++ dq ++ "issue-solution warning-text" ++ dq ++ ">More context is needed for this issue.</p>";
   "      </div>";
   "";
   "      Issues:  ";
   "      "].

Definition prompt (issues : string) : string :=
  String.concat nl prompt_lines ++ issues ++ nl ++ "      ".

Definition fetch_options (issues : string) : JSValue :=
  JSObject
    [("method", JSString "POST");
     ("headers", JSObject [("Content-Type", JSString "application/json")]);
     ("body",
      JSON_stringify
        (JSObject
           [("contents",
             JSArray
               [JSObject
                  [("parts",
                    JSArray [JSObject [("text", JSString (prompt issues))]])]])]))].

(** [data.candidates[0]?.content?.parts[0]?.text] *)
Definition candidate_text (data : JSValue) : Result JSValue :=
  candidates <~ Get data "candidates" ;;
  first <~ Get0 candidates ;;
  opt_chain first (fun first =>
  opt_chain (prop first "content") (fun content =>
  part <~ Get0 (prop content "parts") ;;
  opt_chain part (fun part => Ok (prop part "text")))).

(** The message of the error raised on a non-success status. *)
Definition api_error_message (response : FetchResponse)
    (errorData : JSValue) : Result string :=
  err <~ Get errorData "error" ;;
  message <~ opt_chain err (fun err => Ok (prop err "message")) ;;
  shown <~ ToString (js_or message (JSString (statusText response))) ;;
  Ok ("API Error: " ++ string_of_nat (status response) ++ " " ++ shown).

(** The body of the [try] block. *)
Definition analyze_attempt (issues : string) (apiKey : JSValue) : M string :=
  key <- lift (ToString apiKey) ;;
  response <- fetch (generation_url key) (fetch_options issues) ;;
  if negb (ok response) then
    errorData <- lift (json response) ;;
    message <- lift (api_error_message response errorData) ;;
    throw (ApiError message)
  else
    data <- lift (json response) ;;
    text <- lift (candidate_text data) ;;
    result <- lift (replace_receiver (js_or text (JSString failure_text))) ;;
    ret (strip_fences result).

Definition analyzeWithAI (issues : string) (apiKey : JSValue) : M string :=
  try_catch (analyze_attempt issues apiKey) (fun _ => ret failure_text).

(** *** One URL of the batch *)

(** [url.replace(/https?:\/\//, "").replace(/\//g, "_")] *)
Definition report_filename (url : string) : string :=
  slashes_to_underscores (remove_scheme url).

Definition report_path (url : string) : string :=
  path_join outputDir (report_filename url ++ ".json").

(** [report.categories.accessibility?.score] *)
Definition category_score (report : JSValue) : Result JSValue :=
  cats <~ Get report "categories" ;;
  accessibility <~ Get cats "accessibility" ;;
  opt_chain accessibility (fun a => Ok (prop a "score")).

(** [report.categories.accessibility?.score * 100 || 0] *)
Definition score_of (report : JSValue) : Result JSValue :=
  raw <~ category_score report ;;
  x <~ ToNumber raw ;;
  Ok (js_or (JSNumber (x * 100)%float) (JSNumber 0%float)).

(** [(audit) => audit.score === 0] *)
Definition is_failing (audit : JSValue) : Result bool :=
  score <~ Get audit "score" ;;
  Ok (strict_eq_zero score).

(** [audit.details?.items?.map((item) => JSON.stringify(item, null, 2)) || []] *)
Definition details_of (audit : JSValue) : Result JSValue :=
  details <~ Get audit "details" ;;
  mapped <~ opt_chain details (fun details =>
            opt_chain (prop details "items") (fun items =>
            l <~ map_receiver items ;;
            Ok (JSArray (map JSON_stringify_2 l)))) ;;
  Ok (js_or mapped (JSArray [])).

(** The object literal built for a retained audit. *)
Definition issue_of (audit : JSValue) : Result JSValue :=
  id <~ Get audit "id" ;;
  title <~ Get audit "title" ;;
  description <~ Get audit "description" ;;
  details <~ details_of audit ;;
  Ok (JSObject [("id", id); ("title", title);
                ("description", description); ("details", details)]).

(** [Object.values(report.audits).filter(...).map(...)] *)
Definition issues_of (report : JSValue) : Result (list JSValue) :=
  audits <~ Get report "audits" ;;
  all <~ Object_values audits ;;
  failing <~ rfilterM is_failing all ;;
  rmapM issue_of failing.

(** One line of the details block: the callback of the inner [map]. *)
Definition snippet_line (entry : nat * JSValue) : Result string :=
  let (j, item) := entry in
  nested <~ opt_chain item (fun item =>
            opt_chain (prop item "node") (fun node =>
            Ok (prop node "snippet"))) ;;
  snippet <~ ToString (js_or nested (JSON_stringify_2 item)) ;;
  Ok ("    [" ++ string_of_nat (j + 1) ++ "]: " ++ snippet).

(** [detailsText] after the [if (issue.details?.items?.length)] statement. *)
Definition details_text (issue : JSValue) : Result string :=
  details <~ Get issue "details" ;;
  len <~ opt_chain details (fun details =>
         opt_chain (prop details "items") (fun items =>
         Ok (length_of items))) ;;
  if truthy len then
    details <~ Get issue "details" ;;
    items <~ Get details "items" ;;
    l <~ map_receiver items ;;
    snippets <~ rmapM snippet_line (indexed l) ;;
    Ok (nl ++ "  Details:" ++ nl ++ String.concat nl snippets)
  else Ok "".

(** The callback of the outer [map]: the text of one issue. *)
Definition issue_text (entry : nat * JSValue) : Result string :=
  let (i, issue) := entry in
  let serial := (i + 1)%nat in
  title <~ Get issue "title" ;;
  description <~ Get issue "description" ;;
  detailsText <~ details_text issue ;;
  title <~ ToString (js_or title (JSString "No title")) ;;
  description <~ ToString (js_or description (JSString "No description")) ;;
  Ok ("[" ++ string_of_nat serial ++ "]: " ++ title ++ " - " ++ description
      ++ detailsText).

(** [issues.map(...).join("\n\n")] *)
Definition issues_text (issues : list JSValue) : Result string :=
  blocks <~ rmapM issue_text (indexed issues) ;;
  Ok (String.concat (nl ++ nl) blocks).

(** The record pushed for one URL. *)
Definition result_record (url score : JSValue) (issuesText aiFixes : string)
  : JSValue :=
  JSObject [("url", url); ("score", score);
            ("issues", JSString issuesText); ("aiFixes", JSString aiFixes)].

(** One iteration of [for (const url of urls)], up to [issuesText]: the
    report is produced, read back and summarised as its score and the text
    of its issues. *)
Definition audit_summary (url : JSValue) : M (JSValue * string) :=
  target <- lift (replace_receiver url) ;;
  let jsonFile := report_path target in
  _ <- runLighthouse target
         {| output := None; categories := None; chromeFlags := None;
            maxWaitForLoad := None; outputPath := jsonFile |} ;;
  text <- readFileSync jsonFile ;;
  report <- lift (JSON_parse text) ;;
  score <- lift (score_of report) ;;
  issues <- lift (issues_of report) ;;
  issuesText <- lift (issues_text issues) ;;
  ret (score, issuesText).

(** The whole iteration: the summary, the AI step, and the record pushed. *)
Definition audit_url (url apiKey : JSValue) : M JSValue :=
  summary <- audit_summary url ;;
  let (score, issuesText) := summary in
  aiFixes <- analyzeWithAI issuesText apiKey ;;
  ret (result_record url score issuesText aiFixes).

(** The loop, [results] being the array built so far. *)
Fixpoint audit_loop (urls : list JSValue) (apiKey : JSValue)
    (results : list JSValue) : M (list JSValue) :=
  match urls with
  | [] => ret results
  | url :: rest =>
      r <- audit_url url apiKey ;;
      audit_loop rest apiKey (results ++ [r])%list
  end.

(** *** The handler of POST /runaudit *)

Definition error_payload (message : string) : JSValue :=
  JSObject [("error", JSString message)].

(** [req.body || testInputs] *)
Definition request_inputs (req : Request) : JSValue :=
  js_or (body req) testInputs.

Definition runaudit (req : Request) : M Response :=
  if negb (String.eqb (method req) "POST") then
    ret {| code := 405; payload := error_payload "Method not allowed" |}
  else
    let inputs := request_inputs req in
    let urls := prop inputs "urls" in
    let apiKey := prop inputs "apiKey" in
    if negb (truthy urls) || negb (Array_isArray urls) then
      ret {| code := 400; payload := error_payload "Invalid input: urls" |}
    else if negb (truthy apiKey) then
      ret {| code := 400;
             payload := error_payload "Invalid input: apiKey is required" |}
    else
      results <- audit_loop (elements urls) apiKey [] ;;
      ret {| code := 200; payload := JSObject [("results", JSArray results)] |}.

(** [app.post("/runaudit", ...)]: the router calls the handler on POST
    requests only. *)
Definition post_runaudit (body : JSValue) : M Response :=
  runaudit {| method := "POST"; body := body |}.

(** ** Properties *)

(** *** Running computations *)

Lemma bind_ok {A B} (c : M A) (k : A -> M B) w a w1 :
  c w = (Ok a, w1) -> bind c k w = k a w1.
Proof. intros H. unfold bind. rewrite H. reflexivity. Qed.

Lemma bind_throw {A B} (c : M A) (k : A -> M B) w e w1 :
  c w = (Throw e, w1) -> bind c k w = (Throw e, w1).
Proof. intros H. unfold bind. rewrite H. reflexivity. Qed.

Lemma bind_inv {A B} (c : M A) (k : A -> M B) w b w2 :
  bind c k w = (Ok b, w2) ->
  exists a w1, c w = (Ok a, w1) /\ k a w1 = (Ok b, w2).
Proof.
  unfold bind. destruct (c w) as [[a|e] w1]; intros H.
  - exists a, w1. split; [reflexivity | exact H].
  - discriminate H.
Qed.

Lemma lift_inv {A} (r : Result A) w a w1 :
  lift r w = (Ok a, w1) -> r = Ok a /\ w1 = w.
Proof. unfold lift. intros H. inversion H. split; reflexivity. Qed.

Lemma rbind_inv {A B} (r : Result A) (k : A -> Result B) b :
  rbind r k = Ok b -> exists a, r = Ok a /\ k a = Ok b.
Proof.
  destruct r as [a|e]; simpl; intros H.
  - exists a. split; [reflexivity | exact H].
  - discriminate H.
Qed.

(** *** The batch *)

Definition url_of (r : JSValue) : JSValue := prop r "url".

Lemma audit_url_record url apiKey w r w1 :
  audit_url url apiKey w = (Ok r, w1) ->
  exists score issuesText aiFixes,
    r = result_record url score issuesText aiFixes.
Proof.
  unfold audit_url. intros H.
  apply bind_inv in H. destruct H as ([score issuesText] & w2 & _ & H).
  apply bind_inv in H. destruct H as (aiFixes & w3 & _ & H).
  unfold ret in H. inversion H. subst.
  exists score, issuesText, aiFixes. reflexivity.
Qed.

Lemma audit_loop_urls urls apiKey : forall results w rs w1,
  audit_loop urls apiKey results w = (Ok rs, w1) ->
  map url_of rs = (map url_of results ++ urls)%list.
Proof.
  induction urls as [|url rest IH]; intros results w rs w1 H; simpl in H.
  - unfold ret in H. inversion H. subst. rewrite app_nil_r. reflexivity.
  - apply bind_inv in H. destruct H as (r & w2 & Hr & H).
    apply IH in H. rewrite H, map_app. simpl.
    apply audit_url_record in Hr. destruct Hr as (sc & tx & ai & ->).
    change (url_of (result_record url sc tx ai)) with url.
    rewrite <- app_assoc. reflexivity.
Qed.

(** C1.  A valid request (an array [urls], a truthy [apiKey]) whose batch
    completes is answered 200 with a [results] array holding one record per
    input URL, in input order, the [url] field of the i-th record being the
    i-th input URL. *)
Theorem results_follow_urls (body : JSValue) (urls : list JSValue)
    (w w1 : World) (res : Response) :
  prop body "urls" = JSArray urls ->
  truthy (prop body "apiKey") = true ->
  post_runaudit body w = (Ok res, w1) ->
  exists results,
    res = {| code := 200; payload := JSObject [("results", JSArray results)] |}
    /\ List.length results = List.length urls
    /\ map url_of results = urls.
Proof.
  intros Hurls Hkey H.
  assert (Hbody : truthy body = true).
  { destruct body; simpl in Hurls; try discriminate. reflexivity. }
  unfold post_runaudit, runaudit, request_inputs, js_or in H. simpl in H.
  rewrite Hbody, Hurls, Hkey in H. simpl in H.
  apply bind_inv in H. destruct H as (rs & w2 & Hloop & H).
  unfold ret in H. inversion H. subst.
  apply audit_loop_urls in Hloop. simpl in Hloop.
  exists rs. split; [reflexivity|]. split; [|exact Hloop].
  rewrite <- Hloop, length_map. reflexivity.
Qed.

(** *** Request validation *)

Definition urls_error : Response :=
  {| code := 400; payload := error_payload "Invalid input: urls" |}.

Definition apiKey_error : Response :=
  {| code := 400; payload := error_payload "Invalid input: apiKey is required" |}.

Lemma runaudit_urls_rejected body w :
  Array_isArray (prop (js_or body testInputs) "urls") = false ->
  post_runaudit body w = (Ok urls_error, w).
Proof.
  intros H. unfold post_runaudit, runaudit, request_inputs. simpl.
  rewrite H, orb_true_r. reflexivity.
Qed.

Lemma runaudit_apiKey_rejected body w :
  Array_isArray (prop (js_or body testInputs) "urls") = true ->
  truthy (prop (js_or body testInputs) "apiKey") = false ->
  post_runaudit body w = (Ok apiKey_error, w).
Proof.
  intros Hu Hk. unfold post_runaudit, runaudit, request_inputs. simpl.
  rewrite Hu, Hk.
  destruct (prop (js_or body testInputs) "urls"); try discriminate Hu.
  reflexivity.
Qed.

(** C8.  [POST /runaudit] answers 400 when [urls] is missing or not an
    array, and 400 with another payload when [urls] is an array and [apiKey]
    is missing (or falsy); with no body, the hardcoded list stands for
    [urls], and the request is rejected for its missing [apiKey]. *)
Theorem validation_rejects (body : JSValue) (w : World) :
  (truthy body = true ->
   Array_isArray (prop body "urls") = false ->
   post_runaudit body w = (Ok urls_error, w))
  /\ (truthy body = true ->
      Array_isArray (prop body "urls") = true ->
      truthy (prop body "apiKey") = false ->
      post_runaudit body w = (Ok apiKey_error, w))
  /\ urls_error <> apiKey_error
  /\ (truthy body = false ->
      request_inputs {| method := "POST"; body := body |} = testInputs
      /\ prop testInputs "urls" =
           JSArray
             [JSString "https://workspace.google.com/intl/en_au/lp/gmail-au/index.html";
              JSString "https://workspace.google.com/intl/en_in/lp/gmail-in/index.html";
              JSString "https://workspace.google.com/intl/es_ALL/"]
      /\ post_runaudit body w = (Ok apiKey_error, w)).
Proof.
  repeat split.
  - intros Hb Hu. apply runaudit_urls_rejected.
    unfold js_or. rewrite Hb. exact Hu.
  - intros Hb Hu Hk. apply runaudit_apiKey_rejected; unfold js_or; rewrite Hb;
      assumption.
  - discriminate.
  - unfold request_inputs, js_or. simpl. rewrite H. reflexivity.
  - apply runaudit_apiKey_rejected; unfold js_or; rewrite H; reflexivity.
Qed.

(** C9.  Validation does not ask for a non-empty [urls]: the request
    [{urls: [], apiKey: k}] with a non-empty [k] takes no error branch and
    is answered 200 with [{results: []}], the world untouched. *)
Theorem empty_urls_accepted (k : string) (w : World) :
  k <> "" ->
  post_runaudit (JSObject [("urls", JSArray []); ("apiKey", JSString k)]) w
  = (Ok {| code := 200; payload := JSObject [("results", JSArray [])] |}, w).
Proof.
  intros Hk. unfold post_runaudit, runaudit, request_inputs. simpl.
  destruct (String.eqb_spec k "") as [E|_]; [contradiction|]. reflexivity.
Qed.

(** *** The record pushed for a URL *)

(** The [config] the handler passes to [runLighthouse]: the output path
    alone. *)
Definition handler_config (jsonFile : string) : Config :=
  {| output := None; categories := None; chromeFlags := None;
     maxWaitForLoad := None; outputPath := jsonFile |}.

(** The steps of an iteration that reaches [issuesText]: the URL is a
    string; the command for it succeeds; the file at its report path is
    read; its text parses to a report; and the score and the text of the
    issues are those of that report. *)
Lemma audit_summary_inv url w score issuesText w1 :
  audit_summary url w = (Ok (score, issuesText), w1) ->
  exists target wa text report issues,
    url = JSString target
    /\ exec (lighthouse_cmd target (handler_config (report_path target))) w
       = (Ok tt, wa)
    /\ readFileSync (report_path target) wa = (Ok text, w1)
    /\ JSON_parse text = Ok report
    /\ score_of report = Ok score
    /\ issues_of report = Ok issues
    /\ issues_text issues = Ok issuesText.
Proof.
  unfold audit_summary, runLighthouse. intros H.
  apply bind_inv in H. destruct H as (target & w2 & Hu & H).
  apply lift_inv in Hu. destruct Hu as [Hu ->].
  apply bind_inv in H. destruct H as ([] & w3 & He & H).
  apply bind_inv in H. destruct H as (text & w4 & Hr & H).
  apply bind_inv in H. destruct H as (report & w5 & Hp & H).
  apply lift_inv in Hp. destruct Hp as [Hp ->].
  apply bind_inv in H. destruct H as (sc & w6 & Hs & H).
  apply lift_inv in Hs. destruct Hs as [Hs ->].
  apply bind_inv in H. destruct H as (issues & w7 & Hi & H).
  apply lift_inv in Hi. destruct Hi as [Hi ->].
  apply bind_inv in H. destruct H as (tx & w8 & Ht & H).
  apply lift_inv in Ht. destruct Ht as [Ht ->].
  unfold ret in H. inversion H. subst.
  exists target, w3, text, report, issues.
  split; [destruct url; try discriminate Hu; inversion Hu; reflexivity|].
  repeat split; assumption.
Qed.

(** C2 (amended).  The record pushed for a URL has the fields [url],
    [score], [issues] and [aiFixes], in this order.  The URL is a string;
    the report is what [JSON.parse] returned for the text read at the
    report path of that URL, after the command for that URL succeeded;
    [score] is the score of that report, [issues] the rendered text of the
    issues of that report, and [aiFixes] what [analyzeWithAI] returned for
    that text. *)
Theorem pushed_record_fields (url apiKey : JSValue) (w w1 : World)
    (r : JSValue) :
  audit_url url apiKey w = (Ok r, w1) ->
  exists target wa wb text report issues score issuesText aiFixes,
    url = JSString target
    /\ exec (lighthouse_cmd target (handler_config (report_path target))) w
       = (Ok tt, wa)
    /\ readFileSync (report_path target) wa = (Ok text, wb)
    /\ JSON_parse text = Ok report
    /\ score_of report = Ok score
    /\ issues_of report = Ok issues
    /\ issues_text issues = Ok issuesText
    /\ analyzeWithAI issuesText apiKey wb = (Ok aiFixes, w1)
    /\ r = JSObject [("url", url); ("score", score);
                     ("issues", JSString issuesText);
                     ("aiFixes", JSString aiFixes)].
Proof.
  unfold audit_url. intros H.
  apply bind_inv in H. destruct H as ([score issuesText] & wb & Hs & H).
  apply bind_inv in H. destruct H as (aiFixes & w3 & Ha & H).
  unfold ret in H. inversion H. subst.
  apply audit_summary_inv in Hs.
  destruct Hs as (target & wa & text & report & issues & Hu & He & Hr & Hp
                  & Hsc & Hi & Ht).
  exists target, wa, wb, text, report, issues, score, issuesText, aiFixes.
  repeat split; assumption.
Qed.

(** *** The AI step *)

Lemma analyzeWithAI_total issues apiKey w :
  exists s w1, analyzeWithAI issues apiKey w = (Ok s, w1).
Proof.
  unfold analyzeWithAI, try_catch.
  destruct (analyze_attempt issues apiKey w) as [[s|e] w1].
  - exists s, w1. reflexivity.
  - exists failure_text, w1. reflexivity.
Qed.

Lemma analyzeWithAI_caught issues apiKey w e w1 :
  analyze_attempt issues apiKey w = (Throw e, w1) ->
  analyzeWithAI issues apiKey w = (Ok failure_text, w1).
Proof.
  intros H. unfold analyzeWithAI, try_catch. rewrite H. reflexivity.
Qed.

Lemma attempt_key_raises issues apiKey w e :
  ToString apiKey = Throw e ->
  analyze_attempt issues apiKey w = (Throw e, w).
Proof.
  intros H. unfold analyze_attempt. apply bind_throw.
  unfold lift. rewrite H. reflexivity.
Qed.

Lemma attempt_fetch_rejects issues apiKey key w e w1 :
  ToString apiKey = Ok key ->
  fetch (generation_url key) (fetch_options issues) w = (Throw e, w1) ->
  analyze_attempt issues apiKey w = (Throw e, w1).
Proof.
  intros Hk Hf. unfold analyze_attempt.
  rewrite (bind_ok _ _ w key w) by (unfold lift; rewrite Hk; reflexivity).
  apply bind_throw. exact Hf.
Qed.

Lemma attempt_not_ok issues apiKey key w response w1 :
  ToString apiKey = Ok key ->
  fetch (generation_url key) (fetch_options issues) w = (Ok response, w1) ->
  ok response = false ->
  exists e, analyze_attempt issues apiKey w = (Throw e, w1).
Proof.
  intros Hk Hf Hok. unfold analyze_attempt.
  rewrite (bind_ok _ _ w key w) by (unfold lift; rewrite Hk; reflexivity).
  rewrite (bind_ok _ _ w response w1 Hf). rewrite Hok. simpl.
  unfold bind, lift, throw.
  destruct (json response) as [errorData|e]; [|exists e; reflexivity].
  destruct (api_error_message response errorData) as [m|e];
    eexists; reflexivity.
Qed.

Lemma attempt_ok issues apiKey key w response w1 data text :
  ToString apiKey = Ok key ->
  fetch (generation_url key) (fetch_options issues) w = (Ok response, w1) ->
  ok response = true ->
  json response = Ok data ->
  candidate_text data = Ok text ->
  analyze_attempt issues apiKey w =
    (rbind (replace_receiver (js_or text (JSString failure_text)))
           (fun result => Ok (strip_fences result)), w1).
Proof.
  intros Hk Hf Hok Hj Ht. unfold analyze_attempt.
  rewrite (bind_ok _ _ w key w) by (unfold lift; rewrite Hk; reflexivity).
  rewrite (bind_ok _ _ w response w1 Hf). rewrite Hok. simpl.
  unfold bind, lift, ret. rewrite Hj, Ht.
  destruct (replace_receiver _); reflexivity.
Qed.

(** The endpoint is down when every call rejects or answers a non-success
    status. *)
Definition endpoint_down : Prop :=
  forall url options w,
    match fetch url options w with
    | (Ok response, _) => ok response = false
    | (Throw _, _) => True
    end.

Lemma analyzeWithAI_down issues apiKey w :
  endpoint_down ->
  exists w1, analyzeWithAI issues apiKey w = (Ok failure_text, w1).
Proof.
  intros Hdown.
  destruct (ToString apiKey) as [key|e] eqn:Hk.
  - specialize (Hdown (generation_url key) (fetch_options issues) w).
    destruct (fetch (generation_url key) (fetch_options issues) w)
      as [[response|e] w1] eqn:Hf.
    + destruct (attempt_not_ok issues apiKey key w response w1 Hk Hf Hdown)
        as [e He].
      exists w1. eapply analyzeWithAI_caught. exact He.
    + exists w1. eapply analyzeWithAI_caught.
      eapply attempt_fetch_rejects; eassumption.
  - exists w. eapply analyzeWithAI_caught.
    apply attempt_key_raises. exact Hk.
Qed.

Definition aiFixes_of (r : JSValue) : JSValue := prop r "aiFixes".

(** The audit of [urls] succeeds when, in every state of the world, the
    steps before the AI step return for each of them. *)
Definition audits_succeed (urls : list JSValue) : Prop :=
  forall url, In url urls ->
  forall w, exists summary w1, audit_summary url w = (Ok summary, w1).

Lemma audit_loop_completes apiKey urls :
  audits_succeed urls ->
  forall results w,
  exists added w1,
    audit_loop urls apiKey results w = (Ok (results ++ added)%list, w1)
    /\ map url_of added = urls
    /\ (endpoint_down ->
        Forall (fun r => aiFixes_of r = JSString failure_text) added).
Proof.
  induction urls as [|url rest IH]; intros Hall results w.
  - exists [], w. simpl. rewrite app_nil_r.
    split; [reflexivity|]. split; [reflexivity|]. intros _. constructor.
  - destruct (Hall url (or_introl eq_refl) w) as ([score tx] & w1 & Hs).
    destruct (analyzeWithAI_total tx apiKey w1) as (ai & w2 & Ha).
    set (r := result_record url score tx ai).
    assert (Hr : audit_url url apiKey w = (Ok r, w2)).
    { unfold audit_url. rewrite (bind_ok _ _ w _ w1 Hs).
      rewrite (bind_ok _ _ w1 _ w2 Ha). reflexivity. }
    destruct (IH (fun u Hu => Hall u (or_intror Hu)) (results ++ [r])%list w2)
      as (added & w3 & Hloop & Hurls & Hai).
    exists (r :: added), w3. simpl.
    rewrite (bind_ok _ _ w _ w2 Hr), Hloop, <- app_assoc.
    split; [reflexivity|]. split.
    + rewrite Hurls. reflexivity.
    + intros Hdown. constructor; [|exact (Hai Hdown)].
      destruct (analyzeWithAI_down tx apiKey w1 Hdown) as (w2' & Ha').
      rewrite Ha in Ha'. inversion Ha'. subst. reflexivity.
Qed.

(** C6.  [analyzeWithAI] never raises: in every world it returns a string,
    and that string is ["AI analysis failed."] whenever the [try] block
    raises, in particular when the endpoint answers a non-success status or
    the call rejects.  The loop then goes on: if the audit steps succeed for
    every URL, the batch returns one record per URL whatever the endpoint
    does, and every [aiFixes] is the failure text when the endpoint is
    down. *)
Theorem analyze_never_fails (issues : string) (apiKey : JSValue) (w : World) :
  (exists s w1,
     analyzeWithAI issues apiKey w = (Ok s, w1)
     /\ forall e w2, analyze_attempt issues apiKey w = (Throw e, w2) ->
                     s = failure_text /\ w1 = w2)
  /\ (forall key response w1,
        ToString apiKey = Ok key ->
        fetch (generation_url key) (fetch_options issues) w = (Ok response, w1) ->
        ok response = false ->
        analyzeWithAI issues apiKey w = (Ok failure_text, w1))
  /\ (forall key e w1,
        ToString apiKey = Ok key ->
        fetch (generation_url key) (fetch_options issues) w = (Throw e, w1) ->
        analyzeWithAI issues apiKey w = (Ok failure_text, w1))
  /\ (forall urls results,
        audits_succeed urls ->
        exists added w1,
          audit_loop urls apiKey results w = (Ok (results ++ added)%list, w1)
          /\ map url_of added = urls
          /\ (endpoint_down ->
              Forall (fun r => aiFixes_of r = JSString failure_text) added)).
Proof.
  split; [|split; [|split]].
  - destruct (analyze_attempt issues apiKey w) as [[s|e] w1] eqn:Ha.
    + exists s, w1. split.
      * unfold analyzeWithAI, try_catch. rewrite Ha. reflexivity.
      * intros e w2 H. discriminate H.
    + exists failure_text, w1. split.
      * eapply analyzeWithAI_caught. exact Ha.
      * intros e' w2 H. inversion H. split; reflexivity.
  - intros key response w1 Hk Hf Hok.
    destruct (attempt_not_ok issues apiKey key w response w1 Hk Hf Hok)
      as [e He].
    eapply analyzeWithAI_caught. exact He.
  - intros key e w1 Hk Hf. eapply analyzeWithAI_caught.
    eapply attempt_fetch_rejects; eassumption.
  - intros urls results Hall. apply audit_loop_completes. exact Hall.
Qed.

(** C10.  A success status whose first candidate carries no text part, or
    an empty one, gives the very text returned on errors: the value is the
    one any run whose [try] block raises returns. *)
Theorem empty_generation_reads_as_failure (issues : string)
    (apiKey : JSValue) (key : string) (w w1 : World)
    (response : FetchResponse) (data text : JSValue) :
  ToString apiKey = Ok key ->
  fetch (generation_url key) (fetch_options issues) w = (Ok response, w1) ->
  ok response = true ->
  json response = Ok data ->
  candidate_text data = Ok text ->
  text = JSUndefined \/ text = JSString "" ->
  analyzeWithAI issues apiKey w = (Ok failure_text, w1)
  /\ forall issues' apiKey' w' e w2,
       analyze_attempt issues' apiKey' w' = (Throw e, w2) ->
       fst (analyzeWithAI issues' apiKey' w') = fst (analyzeWithAI issues apiKey w).
Proof.
  intros Hk Hf Hok Hj Ht Hempty.
  assert (H : analyzeWithAI issues apiKey w = (Ok failure_text, w1)).
  { unfold analyzeWithAI, try_catch.
    rewrite (attempt_ok issues apiKey key w response w1 data text Hk Hf Hok Hj Ht).
    destruct Hempty as [-> | ->]; reflexivity. }
  split; [exact H|]. intros issues' apiKey' w' e w2 He.
  rewrite H, (analyzeWithAI_caught _ _ _ _ _ He). reflexivity.
Qed.

(** *** Code fences *)

Lemma prefix_cons a p b s :
  String.prefix (String a p) (String b s) = Ascii.eqb a b && String.prefix p s.
Proof.
  simpl. destruct (ascii_dec a b) as [->|Hab].
  - rewrite Ascii.eqb_refl. reflexivity.
  - destruct (Ascii.eqb_spec a b); [contradiction | reflexivity].
Qed.

Lemma prefix_nil s : String.prefix EmptyString s = true.
Proof. destruct s; reflexivity. Qed.

Lemma prefix_app_l p q : forall s,
  String.prefix (p ++ q) s = true -> String.prefix p s = true.
Proof.
  induction p as [|a p IH]; intros s H.
  - apply prefix_nil.
  - destruct s as [|b s]; [discriminate H|].
    change (String a p ++ q) with (String a (p ++ q)) in H.
    rewrite prefix_cons in *. apply andb_true_iff in H. destruct H as [Ha Hp].
    rewrite Ha, (IH _ Hp). reflexivity.
Qed.

Lemma prefix_append p r : String.prefix p (p ++ r) = true.
Proof.
  induction p as [|a p IH]; [apply prefix_nil|].
  change (String a p ++ r) with (String a (p ++ r)).
  rewrite prefix_cons, Ascii.eqb_refl, IH. reflexivity.
Qed.

Lemma not_prefix_app_l p q s :
  String.prefix p s = false -> String.prefix (p ++ q) s = false.
Proof.
  intros H. destruct (String.prefix (p ++ q) s) eqn:E; [|reflexivity].
  apply prefix_app_l in E. rewrite E in H. discriminate H.
Qed.

Lemma strip_from_keep c s :
  String.prefix fence (String c s) = false ->
  strip_from 0 (String c s) = String c (strip_from 0 s).
Proof.
  intros H. cbn [strip_from].
  change fence_html with (fence ++ "html").
  rewrite (not_prefix_app_l _ _ _ H), H. reflexivity.
Qed.

Lemma strip_from_keep_char c s :
  Ascii.eqb "`" c = false ->
  strip_from 0 (String c s) = String c (strip_from 0 s).
Proof.
  intros H. apply strip_from_keep. unfold fence.
  rewrite prefix_cons, H. reflexivity.
Qed.

(** What [strip_from] returns never starts with a fence: a kept back quote
    was not followed by two more, and a match never starts elsewhere than
    on a back quote. *)
Lemma strip_from_no_fence_prefix : forall s k,
  String.prefix fence (strip_from k s) = false.
Proof.
  induction s as [|c s IH]; intros k.
  - destruct k; reflexivity.
  - destruct k as [|k]; [|apply IH].
    destruct (String.prefix fence (String c s)) eqn:Hf.
    + cbn [strip_from]. rewrite Hf.
      destruct (String.prefix fence_html (String c s)); apply IH.
    + rewrite (strip_from_keep _ _ Hf).
      unfold fence in *. rewrite prefix_cons in *.
      destruct (Ascii.eqb "`" c); [|reflexivity].
      rewrite andb_true_l in *.
      destruct s as [|c2 s2]; [reflexivity|].
      rewrite prefix_cons in Hf.
      destruct (Ascii.eqb "`" c2) eqn:E2.
      * rewrite andb_true_l in Hf.
        rewrite strip_from_keep.
        2:{ unfold fence. rewrite prefix_cons, E2, andb_true_l.
            apply (not_prefix_app_l "`" "`"). exact Hf. }
        rewrite prefix_cons, E2, andb_true_l.
        destruct s2 as [|c3 s3]; [reflexivity|].
        rewrite prefix_cons, prefix_nil, andb_true_r in Hf.
        rewrite (strip_from_keep_char _ _ Hf).
        rewrite prefix_cons, Hf. reflexivity.
      * rewrite (strip_from_keep_char _ _ E2).
        rewrite prefix_cons, E2. reflexivity.
Qed.

Lemma strip_from_no_fence : forall s k,
  contains fence (strip_from k s) = false.
Proof.
  induction s as [|c s IH]; intros k.
  - destruct k; reflexivity.
  - destruct k as [|k]; [|apply IH].
    pose proof (strip_from_no_fence_prefix (String c s) 0) as Hp.
    cbn [strip_from] in *.
    destruct (String.prefix fence_html (String c s)); [apply IH|].
    destruct (String.prefix fence (String c s)); [apply IH|].
    cbn [contains]. rewrite Hp, IH. reflexivity.
Qed.

Lemma strip_from_unchanged : forall s,
  contains fence s = false -> strip_from 0 s = s.
Proof.
  induction s as [|c s IH]; intros H; [reflexivity|].
  cbn [contains] in H. apply orb_false_elim in H. destruct H as [Hp Hc].
  rewrite (strip_from_keep _ _ Hp), (IH Hc). reflexivity.
Qed.

(** C7 (amended).  On a success status whose first candidate's first part
    carries a non-empty text, [analyzeWithAI] returns that text with every
    match of [```html] or [```] removed, wherever it stands, also strictly
    inside the text: what is returned holds no [```] at all, and a text
    without [```] is returned as it is. *)
Theorem analyze_strips_every_fence (issues : string) (apiKey : JSValue)
    (key : string) (w w1 : World) (response : FetchResponse)
    (data : JSValue) (text : string) :
  ToString apiKey = Ok key ->
  fetch (generation_url key) (fetch_options issues) w = (Ok response, w1) ->
  ok response = true ->
  json response = Ok data ->
  candidate_text data = Ok (JSString text) ->
  text <> "" ->
  analyzeWithAI issues apiKey w = (Ok (strip_fences text), w1)
  /\ contains fence (strip_fences text) = false
  /\ (contains fence text = false -> strip_fences text = text).
Proof.
  intros Hk Hf Hok Hj Ht Hne. split; [|split].
  - unfold analyzeWithAI, try_catch.
    rewrite (attempt_ok issues apiKey key w response w1 data _ Hk Hf Hok Hj Ht).
    unfold js_or. simpl.
    destruct (String.eqb_spec text "") as [E|_]; [contradiction|]. reflexivity.
  - apply strip_from_no_fence.
  - apply strip_from_unchanged.
Qed.

(** *** Issues and their text *)

(** The test of the filter, as a function of the audit. *)
Definition zero_score (audit : JSValue) : bool :=
  strict_eq_zero (prop audit "score").

Lemma is_failing_zero_score audit b :
  is_failing audit = Ok b -> b = zero_score audit.
Proof.
  unfold is_failing, Get. destruct (nullish audit); simpl; intros H.
  - discriminate H.
  - inversion H. reflexivity.
Qed.

Lemma rfilterM_filter {A} (p : A -> Result bool) (q : A -> bool) :
  (forall a b, p a = Ok b -> b = q a) ->
  forall l l', rfilterM p l = Ok l' -> l' = filter q l.
Proof.
  intros Hpq. induction l as [|a l IH]; intros l' H; simpl in H.
  - inversion H. reflexivity.
  - apply rbind_inv in H. destruct H as (keep & Hk & H).
    apply rbind_inv in H. destruct H as (rest & Hr & H).
    inversion H. simpl. rewrite <- (Hpq _ _ Hk), <- (IH _ Hr). reflexivity.
Qed.

Lemma rmapM_Forall2 {A B} (f : A -> Result B) :
  forall l l', rmapM f l = Ok l' -> Forall2 (fun a b => f a = Ok b) l l'.
Proof.
  induction l as [|a l IH]; intros l' H; simpl in H.
  - inversion H. constructor.
  - apply rbind_inv in H. destruct H as (b & Hb & H).
    apply rbind_inv in H. destruct H as (bs & Hbs & H).
    inversion H. constructor; [exact Hb | apply IH; exact Hbs].
Qed.

Lemma issues_of_inv report issues :
  issues_of report = Ok issues ->
  exists audits all,
    Get report "audits" = Ok audits
    /\ Object_values audits = Ok all
    /\ Forall2 (fun audit issue => issue_of audit = Ok issue)
               (filter zero_score all) issues.
Proof.
  unfold issues_of. intros H.
  apply rbind_inv in H. destruct H as (audits & Ha & H).
  apply rbind_inv in H. destruct H as (all & Hv & H).
  apply rbind_inv in H. destruct H as (failing & Hf & H).
  apply (rfilterM_filter _ zero_score is_failing_zero_score) in Hf. subst.
  exists audits, all. repeat split; try assumption.
  apply rmapM_Forall2. exact H.
Qed.

Lemma details_of_array audit details :
  details_of audit = Ok details -> exists l, details = JSArray l.
Proof.
  unfold details_of, Get, opt_chain.
  destruct (nullish audit); [discriminate|]. cbn [rbind].
  destruct (nullish (prop audit "details")).
  - cbn. intros H. inversion H. eexists. reflexivity.
  - destruct (nullish (prop (prop audit "details") "items")).
    + cbn. intros H. inversion H. eexists. reflexivity.
    + destruct (prop (prop audit "details") "items"); cbn;
        intros H; inversion H; eexists; reflexivity.
Qed.

(** The issue built for an audit carries the audit's [id], [title] and
    [description], and an array under [details]. *)
Lemma issue_of_inv audit issue :
  issue_of audit = Ok issue ->
  exists l,
    issue = JSObject [("id", prop audit "id"); ("title", prop audit "title");
                      ("description", prop audit "description");
                      ("details", JSArray l)].
Proof.
  unfold issue_of, Get. destruct (nullish audit); [discriminate|].
  cbn [rbind]. intros H.
  apply rbind_inv in H. destruct H as (details & Hd & H).
  apply details_of_array in Hd. destruct Hd as [l ->].
  inversion H. exists l. reflexivity.
Qed.

(** The [details] of an issue being an array, [issue.details?.items] is
    [undefined], the test of the [if] fails, and [detailsText] stays empty. *)
Lemma details_text_of_issue audit issue :
  issue_of audit = Ok issue -> details_text issue = Ok "".
Proof.
  intros H. apply issue_of_inv in H. destruct H as [l ->]. reflexivity.
Qed.

Lemma append_empty_r s : s ++ "" = s.
Proof. induction s as [|c s IH]; [reflexivity|]. simpl. rewrite IH. reflexivity. Qed.

(** The text of the [i]-th issue, in terms of the audit it was built from. *)
Definition block_of (entry : nat * JSValue) (block : string) : Prop :=
  let (i, audit) := entry in
  exists title description,
    ToString (js_or (prop audit "title") (JSString "No title")) = Ok title
    /\ ToString (js_or (prop audit "description") (JSString "No description"))
       = Ok description
    /\ block = "[" ++ string_of_nat (i + 1) ++ "]: " ++ title ++ " - "
               ++ description.

Lemma issue_text_of_issue i audit issue block :
  issue_of audit = Ok issue ->
  issue_text (i, issue) = Ok block ->
  block_of (i, audit) block.
Proof.
  intros Hi. apply issue_of_inv in Hi. destruct Hi as [l ->].
  unfold issue_text. cbn [Get nullish rbind prop assoc String.eqb Ascii.eqb Bool.eqb].
  change (details_text _) with (@Ok string ""). cbn [rbind].
  intros H.
  apply rbind_inv in H. destruct H as (title & Ht & H).
  apply rbind_inv in H. destruct H as (description & Hd & H).
  inversion H. exists title, description.
  repeat split; try assumption. rewrite append_empty_r. reflexivity.
Qed.

Lemma blocks_of_issues failing issues :
  Forall2 (fun audit issue => issue_of audit = Ok issue) failing issues ->
  forall k blocks,
    Forall2 (fun entry block => issue_text entry = Ok block)
            (combine (seq k (List.length issues)) issues) blocks ->
    Forall2 block_of (combine (seq k (List.length failing)) failing) blocks.
Proof.
  induction 1 as [|audit issue failing issues Hi _ IH]; intros k blocks Hb;
    simpl in *.
  - inversion Hb. constructor.
  - inversion Hb as [|e b es bs Hhead Htail]; subst. constructor.
    + eapply issue_text_of_issue; eassumption.
    + apply IH. exact Htail.
Qed.

Lemma block_of_serial i audit block :
  block_of (i, audit) block ->
  String.prefix ("[" ++ string_of_nat (S i) ++ "]: ") block = true.
Proof.
  intros (title & description & _ & _ & ->).
  rewrite Nat.add_1_r.
  change ("[" ++ string_of_nat (S i) ++ "]: " ++ title ++ " - " ++ description)
    with (String "[" (string_of_nat (S i) ++ "]: " ++ title ++ " - " ++ description)).
  change ("[" ++ string_of_nat (S i) ++ "]: ")
    with (String "[" (string_of_nat (S i) ++ "]: ")).
  rewrite prefix_cons, Ascii.eqb_refl, andb_true_l.
  induction (string_of_nat (S i)) as [|c n IH].
  - apply (prefix_append "]: ").
  - change (String c n ++ "]: " ++ title ++ " - " ++ description)
      with (String c (n ++ "]: " ++ title ++ " - " ++ description)).
    change (String c n ++ "]: ") with (String c (n ++ "]: ")).
    rewrite prefix_cons, Ascii.eqb_refl, IH. reflexivity.
Qed.

(** A check is well formed when it is an object or another non-nullish
    value, and its [details.items], when present, is an array. *)
Definition well_formed_audit (audit : JSValue) : Prop :=
  nullish audit = false
  /\ (nullish (prop audit "details") = true
      \/ nullish (prop (prop audit "details") "items") = true
      \/ Array_isArray (prop (prop audit "details") "items") = true).

Lemma issue_of_total audit :
  well_formed_audit audit -> exists issue, issue_of audit = Ok issue.
Proof.
  intros [Hn Hd]. unfold issue_of, details_of, Get, opt_chain. rewrite Hn.
  cbn [rbind]. destruct (nullish (prop audit "details")) eqn:E1.
  - eexists. reflexivity.
  - destruct (nullish (prop (prop audit "details") "items")) eqn:E2.
    + eexists. reflexivity.
    + destruct Hd as [Hd|[Hd|Hd]]; try discriminate Hd.
      destruct (prop (prop audit "details") "items"); try discriminate Hd.
      eexists. reflexivity.
Qed.

Lemma failing_total all :
  Forall well_formed_audit all ->
  exists failing,
    rfilterM is_failing all = Ok failing /\ Forall well_formed_audit failing.
Proof.
  induction 1 as [|audit rest Hhead _ IH].
  - exists []. split; [reflexivity | constructor].
  - destruct IH as (failing & Hf & Hwf). destruct Hhead as [Hn Hd].
    assert (Hscore : is_failing audit = Ok (zero_score audit)).
    { unfold is_failing, Get. rewrite Hn. reflexivity. }
    change (rfilterM is_failing (audit :: rest))
      with (rbind (is_failing audit) (fun keep =>
            rbind (rfilterM is_failing rest) (fun kept =>
            Ok (if keep then audit :: kept else kept)))).
    rewrite Hscore. cbn [rbind]. rewrite Hf. cbn [rbind].
    destruct (zero_score audit).
    + exists (audit :: failing). split; [reflexivity|].
      constructor; [split; assumption | exact Hwf].
    + exists failing. split; [reflexivity | exact Hwf].
Qed.

Lemma issues_total failing :
  Forall well_formed_audit failing ->
  exists issues, rmapM issue_of failing = Ok issues.
Proof.
  induction 1 as [|audit rest Hhead _ IH].
  - exists []. reflexivity.
  - destruct IH as (issues & Hi).
    destruct (issue_of_total audit Hhead) as (issue & Hissue).
    exists (issue :: issues).
    change (rmapM issue_of (audit :: rest))
      with (rbind (issue_of audit) (fun b =>
            rbind (rmapM issue_of rest) (fun bs => Ok (b :: bs)))).
    rewrite Hissue. cbn [rbind]. rewrite Hi. reflexivity.
Qed.

(** The issues of a report whose [audits] hold well-formed checks are
    built without an exception. *)
Lemma issues_of_total report audits all :
  Get report "audits" = Ok audits ->
  Object_values audits = Ok all ->
  Forall well_formed_audit all ->
  exists issues, issues_of report = Ok issues.
Proof.
  intros Ha Hv Hwf. unfold issues_of.
  rewrite Ha. cbn [rbind]. rewrite Hv. cbn [rbind].
  destruct (failing_total all Hwf) as (failing & -> & Hwf'). cbn [rbind].
  apply issues_total. exact Hwf'.
Qed.

Lemma blocks_serial : forall failing k blocks,
  Forall2 block_of (combine (seq k (List.length failing)) failing) blocks ->
  forall i block,
    nth_error blocks i = Some block ->
    String.prefix ("[" ++ string_of_nat (S (k + i)) ++ "]: ") block = true.
Proof.
  induction failing as [|audit failing IH]; intros k blocks Hb i block Hnth;
    simpl in Hb.
  - inversion Hb; subst. destruct i; discriminate Hnth.
  - inversion Hb as [|e b es bs Hhead Htail]; subst.
    destruct i as [|i]; simpl in Hnth.
    + inversion Hnth; subst. rewrite Nat.add_0_r.
      eapply block_of_serial. exact Hhead.
    + rewrite Nat.add_succ_r. apply (IH (S k) bs Htail i block Hnth).
Qed.

(** C5.  The issues of a report are built from the checks of its [audits]
    mapping whose score is strictly equal to [0], and from no other: a check
    is retained if and only if [score === 0] (scores [0.5], [null] and [1]
    are not).  Issues follow the mapping's enumeration order, and the text
    of the i-th (from 0) starts with the serial number i+1. *)
Theorem issues_iff_score_zero (report : JSValue) (issues : list JSValue) :
  issues_of report = Ok issues ->
  exists audits all,
    Get report "audits" = Ok audits
    /\ Object_values audits = Ok all
    /\ Forall2 (fun audit issue => issue_of audit = Ok issue)
               (filter zero_score all) issues
    /\ (forall audit,
          In audit (filter zero_score all) <->
          In audit all /\ strict_eq_zero (prop audit "score") = true)
    /\ strict_eq_zero (JSNumber 0.5%float) = false
    /\ strict_eq_zero JSNull = false
    /\ strict_eq_zero (JSNumber 1%float) = false
    /\ (forall x, strict_eq_zero (JSNumber x) = PrimFloat.eqb x 0%float)
    /\ forall text,
         issues_text issues = Ok text ->
         exists blocks,
           text = String.concat (nl ++ nl) blocks
           /\ Forall2 block_of (indexed (filter zero_score all)) blocks
           /\ forall i block,
                nth_error blocks i = Some block ->
                String.prefix ("[" ++ string_of_nat (S i) ++ "]: ") block = true.
Proof.
  intros H. destruct (issues_of_inv _ _ H) as (audits & all & Ha & Hv & Hf).
  exists audits, all.
  split; [exact Ha|]. split; [exact Hv|]. split; [exact Hf|].
  split; [intros audit; exact (filter_In zero_score audit all)|].
  split; [reflexivity|]. split; [reflexivity|]. split; [reflexivity|].
  split; [reflexivity|].
  intros text Ht. unfold issues_text in Ht.
  apply rbind_inv in Ht. destruct Ht as (blocks & Hb & Ht).
  inversion Ht. apply rmapM_Forall2 in Hb.
  apply (blocks_of_issues _ _ Hf 0) in Hb.
  exists blocks. split; [reflexivity|]. split; [exact Hb|].
  intros i block Hnth.
  apply (blocks_serial _ 0 blocks Hb i block Hnth).
Qed.

(** *** The score *)

Lemma js_or_scaled x :
  js_or (JSNumber (x * 100)%float) (JSNumber 0%float)
  = JSNumber (Binary64.scaled x).
Proof.
  unfold js_or, Binary64.scaled. simpl truthy.
  destruct (number_truthy (x * 100)); reflexivity.
Qed.

(** C4 (amended).  The score of a report is the product, in binary64
    arithmetic and without any rounding to an integer, of the category score
    by 100, replaced by 0 when that product is falsy; it is 0 when the
    category or its score is absent; for a category score in [0, 1] it lies
    in [0, 100]; and the category score 0.76 gives 76. *)
Theorem score_is_scaled_category_score (report : JSValue) :
  (forall x,
     category_score report = Ok (JSNumber x) ->
     score_of report = Ok (JSNumber (Binary64.scaled x))
     /\ ((0 <=? x)%float = true -> (x <=? 1)%float = true ->
         (0 <=? Binary64.scaled x)%float = true
         /\ (Binary64.scaled x <=? 100)%float = true))
  /\ (category_score report = Ok JSUndefined ->
      score_of report = Ok (JSNumber 0%float))
  /\ (forall x,
        Binary64.scaled x
        = if number_truthy (x * 100)%float then (x * 100)%float else 0%float)
  /\ Binary64.scaled 0.76%float = 76%float.
Proof.
  split; [|split; [|split]].
  - intros x Hc. split.
    + unfold score_of. rewrite Hc. cbn [rbind ToNumber JS.ToNumber].
      rewrite js_or_scaled. reflexivity.
    + apply Binary64.scaled_range.
  - intros Hc. unfold score_of. rewrite Hc. reflexivity.
  - intros x. reflexivity.
  - reflexivity.
Qed.

(** ** Further properties *)

(** *** The name of the report file *)

Lemma contains_char_cons c d s :
  contains (String c "") (String d s)
  = Ascii.eqb c d || contains (String c "") s.
Proof.
  cbn [contains]. rewrite prefix_cons, prefix_nil, andb_true_r. reflexivity.
Qed.




Lemma remove_scheme_at_start rest :
  remove_scheme ("https://" ++ rest) = rest
  /\ remove_scheme ("http://" ++ rest) = rest.
Proof. split; cbn; rewrite prefix_nil; reflexivity. Qed.

(** X2.  The [http] and the [https] form of one address have the same
    report file: both lose their scheme, and only the first scheme of a URL
    is removed. *)
Theorem scheme_variants_share_report (rest : string) :
  report_filename ("http://" ++ rest) = slashes_to_underscores rest
  /\ report_filename ("https://" ++ rest) = slashes_to_underscores rest
  /\ report_path ("http://" ++ rest) = report_path ("https://" ++ rest).
Proof.
  destruct (remove_scheme_at_start rest) as [Hhttps Hhttp].
  unfold report_path, report_filename. rewrite Hhttp, Hhttps.
  repeat split.
Qed.

Lemma remove_scheme_eq s :
  remove_scheme s
  = if String.prefix "https://" s then drop 8 s
    else if String.prefix "http://" s then drop 7 s
    else match s with
         | EmptyString => EmptyString
         | String c s' => String c (remove_scheme s')
         end.
Proof. destruct s; reflexivity. Qed.

Lemma remove_scheme_skip a r :
  contains "h" a = false -> remove_scheme (a ++ r) = a ++ remove_scheme r.
Proof.
  induction a as [|c a IH]; intros H; [reflexivity|].
  rewrite contains_char_cons in H. apply orb_false_elim in H.
  destruct H as [Hc Ha].
  change (String c a ++ r) with (String c (a ++ r)).
  rewrite remove_scheme_eq, !prefix_cons, Hc. cbn [andb].
  rewrite (IH Ha). reflexivity.
Qed.

Lemma remove_scheme_none s :
  contains "http://" s = false -> contains "https://" s = false ->
  remove_scheme s = s.
Proof.
  induction s as [|c s IH]; intros H1 H2; [reflexivity|].
  cbn [contains] in H1, H2.
  apply orb_false_elim in H1. destruct H1 as [Hp1 Hc1].
  apply orb_false_elim in H2. destruct H2 as [Hp2 Hc2].
  rewrite remove_scheme_eq, Hp1, Hp2, (IH Hc1 Hc2). reflexivity.
Qed.

(** X3.  The scheme is removed where it first occurs, not only at the start
    of the URL: after a lead without the letter [h] it is removed all the
    same; and a URL holding no scheme keeps every character, its slashes
    replaced. *)
Theorem scheme_removed_where_it_occurs (lead rest : string) :
  contains "h" lead = false ->
  report_filename (lead ++ "https://" ++ rest)
  = slashes_to_underscores (lead ++ rest)
  /\ report_filename (lead ++ "http://" ++ rest)
     = slashes_to_underscores (lead ++ rest)
  /\ (contains "http://" rest = false -> contains "https://" rest = false ->
      report_filename (lead ++ rest) = slashes_to_underscores (lead ++ rest)).
Proof.
  intros H. unfold report_filename. rewrite !(remove_scheme_skip _ _ H).
  destruct (remove_scheme_at_start rest) as [H1 H2].
  rewrite H1, H2. repeat split.
  intros Hn1 Hn2. rewrite (remove_scheme_none _ Hn1 Hn2). reflexivity.
Qed.

(** *** More on the AI step *)

Lemma strip_from_length : forall s k,
  String.length (strip_from k s) <= String.length s.
Proof.
  induction s as [|c s IH]; intros k.
  - destruct k; apply Nat.le_refl.
  - destruct k as [|k]; cbn [strip_from String.length].
    + destruct (String.prefix fence_html (String c s));
        [apply Nat.le_le_succ_r, IH|].
      destruct (String.prefix fence (String c s));
        [apply Nat.le_le_succ_r, IH|].
      cbn [String.length]. apply le_n_S, IH.
    + apply Nat.le_le_succ_r, IH.
Qed.

(** X4.  Removing the fences twice is removing them once, and what is
    returned is never longer than the generated text. *)
Theorem strip_fences_idempotent (s : string) :
  strip_fences (strip_fences s) = strip_fences s
  /\ String.length (strip_fences s) <= String.length s.
Proof.
  split.
  - apply strip_from_unchanged. apply strip_from_no_fence.
  - apply strip_from_length.
Qed.

(** What [analyzeWithAI] returns for the value read from the response:
    the text without its fences when it is a non-empty string, the failure
    text otherwise (for a falsy value through [||], for another value
    through the exception its missing [replace] raises). *)
Definition generated_text (read : Result JSValue) : string :=
  match read with
  | Ok (JSString text) =>
      if String.eqb text "" then failure_text else strip_fences text
  | _ => failure_text
  end.

Lemma replace_or_failure (read : Result JSValue) :
  match rbind read (fun text =>
        rbind (replace_receiver (js_or text (JSString failure_text)))
              (fun result => Ok (strip_fences result))) with
  | Ok s => s
  | Throw _ => failure_text
  end = generated_text read.
Proof.
  destruct read as [text|e]; [|reflexivity].
  destruct text as [| |b|x|t|l|ps]; try reflexivity.
  - destruct b; reflexivity.
  - cbn [rbind generated_text]. unfold js_or. cbn [truthy].
    destruct (number_truthy x); reflexivity.
  - cbn [rbind generated_text]. unfold js_or. cbn [truthy].
    destruct (String.eqb t ""); reflexivity.
Qed.

(** X5.  On a success status, [analyzeWithAI] returns the first text part
    without its fences when that part is a non-empty string; in every other
    case (the body is not JSON, the chain of properties raises, the part is
    missing, empty, or not a string) it returns the failure text. *)
Theorem analyze_on_success (issues : string) (apiKey : JSValue)
    (key : string) (w w1 : World) (response : FetchResponse) :
  ToString apiKey = Ok key ->
  fetch (generation_url key) (fetch_options issues) w = (Ok response, w1) ->
  ok response = true ->
  analyzeWithAI issues apiKey w
  = (Ok (generated_text (rbind (json response) candidate_text)), w1).
Proof.
  intros Hk Hf Hok.
  rewrite <- (replace_or_failure (rbind (json response) candidate_text)).
  unfold analyzeWithAI, try_catch, analyze_attempt.
  rewrite (bind_ok _ _ w key w) by (unfold lift; rewrite Hk; reflexivity).
  rewrite (bind_ok _ _ w response w1 Hf). rewrite Hok. cbn [negb].
  unfold bind, lift, ret.
  destruct (json response) as [data|e]; [|reflexivity]. cbn [rbind].
  destruct (candidate_text data) as [text|e]; [|reflexivity]. cbn [rbind].
  destruct (replace_receiver (js_or text (JSString failure_text)));
    reflexivity.
Qed.

(** X6.  Only the first candidate and its first part are read: with an
    array of candidates whose first element has a [content] whose [parts]
    is an array with a non-nullish first element, the value read is the
    [text] of that element, whatever the other candidates and parts hold.
    An empty [candidates] or [parts] array, or a first candidate without
    [content], gives [undefined]; a missing [candidates], or a [content]
    without [parts], raises. *)
Theorem candidate_text_cases (data : JSValue) :
  (forall first others content part parts,
     prop data "candidates" = JSArray (first :: others) ->
     prop first "content" = content ->
     prop content "parts" = JSArray (part :: parts) ->
     nullish part = false ->
     candidate_text data = Ok (prop part "text"))
  /\ (prop data "candidates" = JSArray [] ->
      candidate_text data = Ok JSUndefined)
  /\ (forall first others,
        prop data "candidates" = JSArray (first :: others) ->
        nullish (prop first "content") = true ->
        candidate_text data = Ok JSUndefined)
  /\ (forall first others,
        prop data "candidates" = JSArray (first :: others) ->
        nullish first = false ->
        nullish (prop first "content") = false ->
        prop (prop first "content") "parts" = JSArray [] ->
        candidate_text data = Ok JSUndefined)
  /\ (nullish (prop data "candidates") = true ->
      candidate_text data = Throw TypeError)
  /\ (forall first others,
        prop data "candidates" = JSArray (first :: others) ->
        nullish first = false ->
        nullish (prop first "content") = false ->
        nullish (prop (prop first "content") "parts") = true ->
        candidate_text data = Throw TypeError).
Proof.
  assert (Hdata : forall l, prop data "candidates" = JSArray l ->
                            nullish data = false).
  { intros l H. destruct data; try discriminate H; reflexivity. }
  unfold candidate_text, Get, opt_chain.
  split; [|split; [|split; [|split; [|split]]]].
  - intros first others content part parts Hc Hcontent Hparts Hpart.
    rewrite (Hdata _ Hc), Hc. cbn [rbind Get0 nth].
    assert (Hfirst : nullish first = false).
    { destruct first; try reflexivity; subst content; discriminate Hparts. }
    assert (Hcont : nullish content = false).
    { destruct content; try reflexivity; discriminate Hparts. }
    rewrite Hfirst, Hcontent, Hcont, Hparts. cbn [rbind Get0 nth].
    rewrite Hpart. reflexivity.
  - intros Hc. rewrite (Hdata _ Hc), Hc. reflexivity.
  - intros first others Hc Hcontent.
    rewrite (Hdata _ Hc), Hc. cbn [rbind Get0 nth].
    destruct (nullish first); [reflexivity|]. rewrite Hcontent. reflexivity.
  - intros first others Hc Hfirst Hcontent Hparts.
    rewrite (Hdata _ Hc), Hc. cbn [rbind Get0 nth].
    rewrite Hfirst, Hcontent, Hparts. reflexivity.
  - intros Hc. destruct (nullish data); [reflexivity|]. cbn [rbind].
    destruct (prop data "candidates"); try discriminate Hc; reflexivity.
  - intros first others Hc Hfirst Hcontent Hparts.
    rewrite (Hdata _ Hc), Hc. cbn [rbind Get0 nth].
    rewrite Hfirst, Hcontent.
    destruct (prop (prop first "content") "parts"); try discriminate Hparts;
      reflexivity.
Qed.

Lemma attempt_result issues apiKey w s w1 :
  analyze_attempt issues apiKey w = (Ok s, w1) ->
  exists result, s = strip_fences result.
Proof.
  unfold analyze_attempt. intros H.
  apply bind_inv in H. destruct H as (key & w2 & _ & H).
  apply bind_inv in H. destruct H as (response & w3 & _ & H).
  destruct (negb (ok response)).
  - apply bind_inv in H. destruct H as (errorData & w4 & _ & H).
    apply bind_inv in H. destruct H as (message & w5 & _ & H).
    discriminate H.
  - apply bind_inv in H. destruct H as (data & w4 & _ & H).
    apply bind_inv in H. destruct H as (text & w5 & _ & H).
    apply bind_inv in H. destruct H as (result & w6 & _ & H).
    unfold ret in H. inversion H. exists result. reflexivity.
Qed.

(** X7.  Whatever the endpoint answers, [analyzeWithAI] returns a string
    that holds no code fence. *)
Theorem analyze_output_has_no_fence (issues : string) (apiKey : JSValue)
    (w : World) :
  exists s w1,
    analyzeWithAI issues apiKey w = (Ok s, w1)
    /\ contains fence s = false.
Proof.
  unfold analyzeWithAI, try_catch.
  destruct (analyze_attempt issues apiKey w) as [[s|e] w1] eqn:Ha.
  - exists s, w1. split; [reflexivity|].
    apply attempt_result in Ha. destruct Ha as [result ->].
    apply strip_from_no_fence.
  - exists failure_text, w1. split; reflexivity.
Qed.

(** *** More on the handler *)

(** X8.  A request that is answered is answered 400 or 200: 400 with one of
    the two validation errors, the world left as it was (no command was
    run, no file read, no endpoint called), or 200 with a [results] array. *)
Theorem answers_are_400_or_200 (body : JSValue) (w w1 : World)
    (res : Response) :
  post_runaudit body w = (Ok res, w1) ->
  (res = urls_error /\ w1 = w)
  \/ (res = apiKey_error /\ w1 = w)
  \/ exists results,
       res = {| code := 200; payload := JSObject [("results", JSArray results)] |}.
Proof.
  unfold post_runaudit, runaudit. cbn [method negb String.eqb Ascii.eqb Bool.eqb].
  cbv zeta.
  destruct (negb (truthy (prop (request_inputs {| method := "POST"; body := body |}) "urls"))
            || negb (Array_isArray (prop (request_inputs {| method := "POST"; body := body |}) "urls"))).
  - intros H. unfold ret in H. inversion H. left. split; reflexivity.
  - destruct (negb (truthy (prop (request_inputs {| method := "POST"; body := body |}) "apiKey"))).
    + intros H. unfold ret in H. inversion H. right. left. split; reflexivity.
    + intros H. apply bind_inv in H. destruct H as (results & w2 & _ & H).
      unfold ret in H. inversion H. right. right. exists results. reflexivity.
Qed.

(** The loop over [l1 ++ l2] is the loop over [l1] followed, when it
    returns, by the loop over [l2] from the results and the world it left. *)
Lemma audit_loop_app apiKey l1 l2 : forall results w,
  audit_loop (l1 ++ l2) apiKey results w
  = match audit_loop l1 apiKey results w with
    | (Ok rs, w1) => audit_loop l2 apiKey rs w1
    | (Throw e, w1) => (Throw e, w1)
    end.
Proof.
  induction l1 as [|url l1 IH]; intros results w; [reflexivity|].
  cbn [app audit_loop]. unfold bind.
  destruct (audit_url url apiKey w) as [[r|e] w1]; [apply IH | reflexivity].
Qed.

(** X9.  The batch stops at the first URL whose iteration raises: the
    handler raises that exception, in the world that iteration left; the
    records of the URLs before it are lost and the URLs after it are not
    audited. *)
Theorem batch_stops_at_first_failure (body apiKey : JSValue)
    (before after : list JSValue) (url : JSValue) (done : list JSValue)
    (w w1 w2 : World) (e : Exn) :
  prop body "urls" = JSArray (before ++ url :: after) ->
  prop body "apiKey" = apiKey ->
  truthy apiKey = true ->
  audit_loop before apiKey [] w = (Ok done, w1) ->
  audit_url url apiKey w1 = (Throw e, w2) ->
  post_runaudit body w = (Throw e, w2).
Proof.
  intros Hurls Hkey Htruthy Hbefore Hurl.
  assert (Hbody : truthy body = true).
  { destruct body; simpl in Hurls; try discriminate. reflexivity. }
  unfold post_runaudit, runaudit, request_inputs, js_or. simpl.
  rewrite Hbody, Hurls, Hkey, Htruthy. simpl.
  apply bind_throw. rewrite audit_loop_app, Hbefore.
  cbn [audit_loop]. apply bind_throw. exact Hurl.
Qed.

(** X10.  An iteration stops at its first failing step, in the world that
    step left: an element of [urls] that is not a string raises a
    [TypeError] before any command is run; a failed command raises before
    the report is read; an unreadable report raises before it is parsed; an
    unparsable report raises before the endpoint is called. *)
Theorem iteration_stops_at_first_failing_step (url apiKey : JSValue)
    (w : World) :
  (replace_receiver url = Throw TypeError ->
   audit_url url apiKey w = (Throw TypeError, w))
  /\ (forall target e w1,
        url = JSString target ->
        exec (lighthouse_cmd target (handler_config (report_path target))) w
        = (Throw e, w1) ->
        audit_url url apiKey w = (Throw e, w1))
  /\ (forall target e w1 w2,
        url = JSString target ->
        exec (lighthouse_cmd target (handler_config (report_path target))) w
        = (Ok tt, w1) ->
        readFileSync (report_path target) w1 = (Throw e, w2) ->
        audit_url url apiKey w = (Throw e, w2))
  /\ (forall target text e w1 w2,
        url = JSString target ->
        exec (lighthouse_cmd target (handler_config (report_path target))) w
        = (Ok tt, w1) ->
        readFileSync (report_path target) w1 = (Ok text, w2) ->
        JSON_parse text = Throw e ->
        audit_url url apiKey w = (Throw e, w2)).
Proof.
  unfold audit_url, audit_summary, runLighthouse, handler_config.
  split; [|split; [|split]].
  - intros H. apply bind_throw, bind_throw. unfold lift. rewrite H.
    reflexivity.
  - intros target e w1 -> Hexec. apply bind_throw.
    rewrite (bind_ok _ _ w target w) by reflexivity.
    apply bind_throw. exact Hexec.
  - intros target e w1 w2 -> Hexec Hread. apply bind_throw.
    rewrite (bind_ok _ _ w target w) by reflexivity.
    rewrite (bind_ok _ _ w tt w1 Hexec).
    apply bind_throw. exact Hread.
  - intros target text e w1 w2 -> Hexec Hread Hparse. apply bind_throw.
    rewrite (bind_ok _ _ w target w) by reflexivity.
    rewrite (bind_ok _ _ w tt w1 Hexec).
    rewrite (bind_ok _ _ w1 text w2 Hread).
    apply bind_throw. unfold lift. rewrite Hparse. reflexivity.
Qed.

(** *** More on issues and the score *)

(** X12.  A retained check whose title (or description) is absent, empty
    or otherwise falsy is rendered with ["No title"] (["No description"]). *)
Theorem missing_title_and_description (i : nat) (audit issue : JSValue) :
  issue_of audit = Ok issue ->
  (forall description,
     truthy (prop audit "title") = false ->
     prop audit "description" = JSString description ->
     description <> "" ->
     issue_text (i, issue)
     = Ok ("[" ++ string_of_nat (i + 1) ++ "]: No title - " ++ description))
  /\ (forall title,
        prop audit "title" = JSString title ->
        title <> "" ->
        truthy (prop audit "description") = false ->
        issue_text (i, issue)
        = Ok ("[" ++ string_of_nat (i + 1) ++ "]: " ++ title
              ++ " - No description"))
  /\ (truthy (prop audit "title") = false ->
      truthy (prop audit "description") = false ->
      issue_text (i, issue)
      = Ok ("[" ++ string_of_nat (i + 1) ++ "]: No title - No description")).
Proof.
  intros Hi. apply issue_of_inv in Hi. destruct Hi as [l ->].
  unfold issue_text.
  cbn [Get nullish rbind prop assoc String.eqb Ascii.eqb Bool.eqb].
  change (details_text _) with (@Ok string ""). cbn [rbind].
  unfold js_or. split; [|split].
  - intros description Ht Hd Hne. rewrite Ht, Hd. cbn [truthy].
    destruct (String.eqb_spec description "") as [E|_]; [contradiction|].
    cbn. rewrite !append_empty_r. reflexivity.
  - intros title Ht Hne Hd. rewrite Ht, Hd. cbn [truthy].
    destruct (String.eqb_spec title "") as [E|_]; [contradiction|].
    cbn. reflexivity.
  - intros Ht Hd. rewrite Ht, Hd. cbn. reflexivity.
Qed.







Lemma nothing_failing all :
  Forall (fun audit => nullish audit = false /\ zero_score audit = false) all ->
  rfilterM is_failing all = Ok [].
Proof.
  induction 1 as [|audit rest [Hn Hz] _ IH]; [reflexivity|].
  change (rfilterM is_failing (audit :: rest))
    with (rbind (is_failing audit) (fun keep =>
          rbind (rfilterM is_failing rest) (fun kept =>
          Ok (if keep then audit :: kept else kept)))).
  unfold is_failing at 1, Get. rewrite Hn. cbn [rbind].
  unfold zero_score in Hz. rewrite Hz, IH. reflexivity.
Qed.

(** X14.  When no check of the report has the score 0, there is no issue
    and the text of the issues is the empty string, whatever the [details]
    of the checks hold. *)
Theorem no_failing_check_no_text (report : JSValue) (all : list JSValue) :
  nullish report = false ->
  Object_values (prop report "audits") = Ok all ->
  Forall (fun audit => nullish audit = false /\ zero_score audit = false) all ->
  issues_of report = Ok []
  /\ rbind (issues_of report) issues_text = Ok "".
Proof.
  intros Hr Hv Hall.
  assert (H : issues_of report = Ok []).
  { unfold issues_of, Get. rewrite Hr. cbn [rbind]. rewrite Hv. cbn [rbind].
    rewrite (nothing_failing all Hall). reflexivity. }
  rewrite H. split; reflexivity.
Qed.

(** X15.  The score returned for a report is always a number, and never
    [NaN]: a product that is [NaN] (the score of an absent category, for
    one) is replaced by 0. *)
Theorem score_is_a_number (report score : JSValue) :
  score_of report = Ok score ->
  exists x, score = JSNumber x /\ PrimFloat.is_nan x = false.
Proof.
  unfold score_of. intros H.
  apply rbind_inv in H. destruct H as (raw & _ & H).
  apply rbind_inv in H. destruct H as (x & _ & H).
  inversion H. unfold js_or. cbn [truthy]. unfold number_truthy.
  destruct (PrimFloat.is_nan (x * 100)) eqn:Enan.
  - rewrite orb_true_r. cbn [negb]. exists 0%float. split; reflexivity.
  - destruct (PrimFloat.eqb (x * 100) 0); cbn [orb negb].
    + exists 0%float. split; reflexivity.
    + exists (x * 100)%float. split; [reflexivity | exact Enan].
Qed.

(** X16.  A category score of [null] gives the score 0, as does [false];
    [true] gives 100. *)
Theorem score_of_null_and_booleans (report : JSValue) :
  (category_score report = Ok JSNull ->
   score_of report = Ok (JSNumber 0%float))
  /\ (category_score report = Ok (JSBool false) ->
      score_of report = Ok (JSNumber 0%float))
  /\ (category_score report = Ok (JSBool true) ->
      score_of report = Ok (JSNumber 100%float)).
Proof.
  unfold score_of.
  split; [|split]; intros H; rewrite H; reflexivity.
Qed.

(** *** The request sent to the endpoint *)

Lemma append_assoc3 a b c : (a ++ b) ++ c = a ++ b ++ c.
Proof.
  induction a as [|x a IH]; [reflexivity|]. cbn [append]. rewrite IH.
  reflexivity.
Qed.

Lemma quote_bytes_app a b :
  quote_bytes (a ++ b) = quote_bytes a ++ quote_bytes b.
Proof.
  induction a as [|x a IH]; [reflexivity|].
  cbn [append quote_bytes]. rewrite IH, append_assoc3. reflexivity.
Qed.

(** The text of the request body before and after the issues. *)
Definition body_head : string :=
  "{" ++ dq ++ "contents" ++ dq ++ ":[{" ++ dq ++ "parts" ++ dq ++ ":[{"
    ++ dq ++ "text" ++ dq ++ ":" ++ dq
    ++ quote_bytes (String.concat nl prompt_lines).

Definition body_tail : string :=
  quote_bytes (nl ++ "      ") ++ dq ++ "}]}]}".

(** X17.  The request is a POST with a JSON content type whose body is a
    fixed text around the issues: the JSON text of an object holding, as
    the single [text] part of a single content, the prompt, in which the
    text of the issues stands once, each of its bytes escaped as a JSON
    string requires.  Nothing else of the body depends on the issues, and
    the API key is no part of it. *)
Theorem request_body_embeds_issues (issues : string) :
  fetch_options issues
  = JSObject
      [("method", JSString "POST");
       ("headers", JSObject [("Content-Type", JSString "application/json")]);
       ("body", JSString (body_head ++ quote_bytes issues ++ body_tail))].
Proof.
  unfold fetch_options, body_head, body_tail. do 4 f_equal.
  unfold JSON_stringify, JS.JSON_stringify, prompt.
  cbn [SerializeJSONProperty of_option_string map flat_map app].
  unfold json_wrap, QuoteJSONString. cbn [String.eqb String.concat].
  rewrite !quote_bytes_app.
  f_equal. rewrite !append_assoc3. reflexivity.
Qed.

End Service.
End Audit.

(** ** A concrete world

    The outside world is a log of the commands run.  The audit tool always
    succeeds and every report file holds [report]; the endpoint answers
    [response] to every call. *)

Module Demo.
Import JS Audit.

Definition World : Type := list string.

Definition exec (cmd : string) : M World unit :=
  fun w => (Ok tt, (w ++ [cmd])%list).

Definition readFileSync (path : string) : M World string :=
  fun w => (Ok path, w).

Definition path_join (dir name : string) : string := dir ++ "/" ++ name.

Definition rootPath : string := "/app/".

Definition Number_toString (x : float) : string := "0".

Definition StringToNumber (s : string) : float := PrimFloat.nan.

Definition fetch (response : FetchResponse) (url : string)
    (options : JSValue) : M World FetchResponse :=
  fun w => (Ok response, w).

Definition audit (id title description : string) (score : JSValue)
    (items : list JSValue) : string * JSValue :=
  (id,
   JSObject [("id", JSString id); ("title", JSString title);
             ("description", JSString description); ("score", score);
             ("details", JSObject [("items", JSArray items)])]).

Definition img_item : JSValue :=
  JSObject [("node", JSObject [("snippet", JSString "<img src=logo.png>")])].

(** A report with the category score [score] and four checks, of which
    only the first has the score 0. *)
Definition report_with (score : JSValue) : JSValue :=
  JSObject
    [("categories",
      JSObject [("accessibility", JSObject [("score", score)])]);
     ("audits",
      JSObject
        [audit "image-alt" "Image elements must have alternate text"
           "Informative elements should aim for short, descriptive alternate text."
           (JSNumber 0%float) [img_item];
         audit "color-contrast" "Contrast is sufficient" "Low-contrast text."
           (JSNumber 1%float) [];
         audit "bypass" "The page has a skip link" "Skip links."
           JSNull [];
         audit "target-size" "Touch targets are large enough" "Targets."
           (JSNumber 0.5%float) []])].

Definition report : JSValue := report_with (JSNumber 0.9%float).

Definition JSON_parse (text : string) : Result JSValue := Ok report.

Definition generated (text : JSValue) : FetchResponse :=
  {| ok := true; status := 200; statusText := "OK";
     json :=
       Ok (JSObject
             [("candidates",
               JSArray
                 [JSObject
                    [("content",
                      JSObject
                        [("parts", JSArray [JSObject [("text", text)]])])]])]) |}.

Definition refused : FetchResponse :=
  {| ok := false; status := 403; statusText := "Forbidden";
     json := Ok (JSObject [("error", JSObject [("message", JSString "bad key")])]) |}.

Definition post (response : FetchResponse) (body : JSValue)
  : M World Response :=
  post_runaudit World exec readFileSync JSON_parse (fetch response) path_join
    rootPath Number_toString StringToNumber body.

Definition analyze (response : FetchResponse) (issues : string)
    (apiKey : JSValue) : M World string :=
  analyzeWithAI World (fetch response) Number_toString issues apiKey.

Definition request (urls : list string) (apiKey : string) : JSValue :=
  JSObject [("urls", JSArray (map JSString urls)); ("apiKey", JSString apiKey)].

Definition two_urls : list string :=
  ["https://example.com"; "http://a.com/x/y"].

Definition example_com : JSValue := JSString "https://example.com".

Definition fenced : JSValue := JSString "```html<p>a```b</p>```".

(** The run of a two-URL batch against an endpoint that answers [fenced]. *)
Definition batch_run : Result Response * World :=
  Eval vm_compute in post (generated fenced) (request two_urls "k") [].

Definition batch_response : Response :=
  match fst batch_run with
  | Ok res => res
  | Throw _ => urls_error
  end.

(** The iteration for one URL, and the record it pushes. *)
Definition url_run : Result JSValue * World :=
  Eval vm_compute in
    audit_url World exec readFileSync JSON_parse (fetch (generated fenced))
      path_join rootPath Number_toString StringToNumber example_com
      (JSString "k") [].

Definition url_record : JSValue :=
  match fst url_run with
  | Ok r => r
  | Throw _ => JSUndefined
  end.

Definition report_issues : list JSValue :=
  Eval vm_compute in
    match issues_of Number_toString report with
    | Ok issues => issues
    | Throw _ => []
    end.

Definition image_alt_text : string :=
  "[1]: Image elements must have alternate text - Informative elements should aim for short, descriptive alternate text.".

(** *** Sanity checks against the scenarios of the specification *)

Example filename_a_com :
  report_filename "https://a.com/x/y" ++ ".json" = "a.com_x_y.json".
Proof. reflexivity. Qed.

Example score_ninety :
  score_of Number_toString StringToNumber report = Ok (JSNumber 90%float).
Proof. reflexivity. Qed.

Example no_issue_no_text : issues_text Number_toString [] = Ok "".
Proof. reflexivity. Qed.

(** *** C1 *)

Lemma results_follow_urls_witness :
  exists results,
    batch_response
    = {| code := 200; payload := JSObject [("results", JSArray results)] |}
    /\ List.length results = List.length (map JSString two_urls)
    /\ map url_of results = map JSString two_urls.
Proof.
  apply (results_follow_urls World exec readFileSync JSON_parse
           (fetch (generated fenced)) path_join rootPath Number_toString
           StringToNumber (request two_urls "k") (map JSString two_urls)
           [] (snd batch_run) batch_response);
    vm_compute; reflexivity.
Defined.

(** *** C2 *)

(** C2, as stated, fails: the record pushed for [https://example.com] has
    no field [issuesText]; its fields are [url], [score], [issues] and
    [aiFixes]. *)
Lemma pushed_record_has_no_issuesText :
  audit_url World exec readFileSync JSON_parse (fetch (generated fenced))
    path_join rootPath Number_toString StringToNumber example_com
    (JSString "k") [] = (Ok url_record, snd url_run)
  /\ prop url_record "issuesText" = JSUndefined
  /\ prop url_record "issues" = JSString image_alt_text
  /\ ~ (exists url score issuesText aiFixes,
          url_record = JSObject [("url", url); ("score", score);
                                 ("issuesText", issuesText);
                                 ("aiFixes", aiFixes)]).
Proof.
  split; [vm_compute; reflexivity|].
  split; [reflexivity|]. split; [reflexivity|].
  intros (url & score & issuesText & aiFixes & H). discriminate H.
Qed.

Lemma pushed_record_fields_witness :
  exists target wa wb text report issues score issuesText aiFixes,
    example_com = JSString target
    /\ exec (lighthouse_cmd target
               (handler_config (report_path path_join rootPath target))) []
       = (Ok tt, wa)
    /\ readFileSync (report_path path_join rootPath target) wa = (Ok text, wb)
    /\ JSON_parse text = Ok report
    /\ score_of Number_toString StringToNumber report = Ok score
    /\ issues_of Number_toString report = Ok issues
    /\ issues_text Number_toString issues = Ok issuesText
    /\ analyze (generated fenced) issuesText (JSString "k") wb
       = (Ok aiFixes, snd url_run)
    /\ url_record = JSObject [("url", example_com); ("score", score);
                              ("issues", JSString issuesText);
                              ("aiFixes", JSString aiFixes)].
Proof.
  apply (pushed_record_fields World exec readFileSync JSON_parse
           (fetch (generated fenced)) path_join rootPath Number_toString
           StringToNumber example_com (JSString "k") [] (snd url_run)
           url_record).
  vm_compute. reflexivity.
Defined.

(** *** C3 *)

(** C3 fails on the code.  The check [image-alt] of [report] has the score
    0 and one detail item, whose [node.snippet] is an [img] element; the
    issue built for it keeps the stringified item in an array under
    [details], and the text rendered for it stops after the description: no
    [Details:] section, no snippet. *)
Theorem failing_check_details_lost :
  issues_of Number_toString report = Ok report_issues
  /\ List.length report_issues = 1%nat
  /\ map (fun issue => Array_isArray (prop issue "details")) report_issues
     = [true]
  /\ map (fun issue => prop (prop issue "details") "items") report_issues
     = [JSUndefined]
  /\ issues_text Number_toString report_issues = Ok image_alt_text
  /\ contains "Details:" image_alt_text = false
  /\ contains "<img" image_alt_text = false.
Proof. repeat split; vm_compute; reflexivity. Qed.

(** *** C4 *)

(** C4, as stated, fails: the category score 0.57 gives a score strictly
    between 56 and 57, which no rounding to an integer returns. *)
Lemma score_is_not_rounded :
  score_of Number_toString StringToNumber (report_with (JSNumber 0.57%float))
  = Ok (JSNumber (0.57 * 100)%float)
  /\ (56 <? 0.57 * 100)%float = true
  /\ (0.57 * 100 <? 57)%float = true.
Proof. repeat split; reflexivity. Qed.

Lemma score_witness :
  score_of Number_toString StringToNumber (report_with (JSNumber 0.76%float))
  = Ok (JSNumber 76%float)
  /\ (0 <=? Binary64.scaled 0.76)%float = true
  /\ (Binary64.scaled 0.76 <=? 100)%float = true
  /\ score_of Number_toString StringToNumber
       (JSObject [("categories", JSObject []); ("audits", JSObject [])])
     = Ok (JSNumber 0%float).
Proof.
  destruct (score_is_scaled_category_score Number_toString StringToNumber
              (report_with (JSNumber 0.76%float))) as (Hnum & _ & _ & H76).
  destruct (Hnum 0.76%float eq_refl) as [Hscore Hrange].
  destruct (Hrange eq_refl eq_refl) as [Hlo Hhi].
  rewrite H76 in Hscore.
  destruct (score_is_scaled_category_score Number_toString StringToNumber
              (JSObject [("categories", JSObject []); ("audits", JSObject [])]))
    as (_ & Habsent & _).
  split; [exact Hscore|]. split; [exact Hlo|]. split; [exact Hhi|].
  exact (Habsent eq_refl).
Defined.

(** *** C5 *)

Lemma issues_iff_score_zero_witness :
  exists audits all,
    Get report "audits" = Ok audits
    /\ Object_values audits = Ok all
    /\ List.length all = 4%nat
    /\ List.length (filter zero_score all) = 1%nat
    /\ Forall2 (fun audit issue => issue_of Number_toString audit = Ok issue)
               (filter zero_score all) report_issues
    /\ forall text,
         issues_text Number_toString report_issues = Ok text ->
         exists blocks,
           text = String.concat (nl ++ nl) blocks
           /\ forall i block,
                nth_error blocks i = Some block ->
                String.prefix ("[" ++ string_of_nat (S i) ++ "]: ") block = true.
Proof.
  destruct (issues_iff_score_zero Number_toString report report_issues eq_refl)
    as (audits & all & Ha & Hv & Hf & _ & _ & _ & _ & _ & Ht).
  exists audits, all.
  assert (Hall : all = map snd (match audits with JSObject ps => ps | _ => [] end)).
  { vm_compute in Ha. inversion Ha. subst audits. vm_compute in Hv.
    inversion Hv. reflexivity. }
  split; [exact Ha|]. split; [exact Hv|].
  split; [vm_compute in Ha; inversion Ha; subst audits; rewrite Hall; reflexivity|].
  split; [vm_compute in Ha; inversion Ha; subst audits; rewrite Hall; reflexivity|].
  split; [exact Hf|].
  intros text Htext. destruct (Ht text Htext) as (blocks & Hb & _ & Hs).
  exists blocks. split; assumption.
Defined.

(** *** C6 *)

Lemma demo_audits_succeed urls :
  audits_succeed World exec readFileSync JSON_parse path_join rootPath
    Number_toString StringToNumber (map JSString urls).
Proof.
  intros url Hin w. apply in_map_iff in Hin. destruct Hin as (u & <- & _).
  eexists. eexists. lazy. reflexivity.
Defined.

Lemma refused_endpoint_down : endpoint_down World (fetch refused).
Proof. intros url options w. reflexivity. Defined.

Lemma analyze_never_fails_witness :
  analyze refused "issues" (JSString "k") [] = (Ok failure_text, [])
  /\ exists added w1,
       audit_loop World exec readFileSync JSON_parse (fetch refused) path_join
         rootPath Number_toString StringToNumber (map JSString two_urls)
         (JSString "k") [] [] = (Ok added, w1)
       /\ map url_of added = map JSString two_urls
       /\ Forall (fun r => aiFixes_of r = JSString failure_text) added.
Proof.
  destruct (analyze_never_fails World exec readFileSync JSON_parse
              (fetch refused) path_join rootPath Number_toString
              StringToNumber "issues" (JSString "k") [])
    as (_ & Hrefused & _ & Hbatch).
  split.
  - apply (Hrefused "k" refused []); reflexivity.
  - destruct (Hbatch (map JSString two_urls) [] (demo_audits_succeed two_urls))
      as (added & w1 & Hloop & Hurls & Hai).
    exists added, w1. split; [exact Hloop|]. split; [exact Hurls|].
    exact (Hai refused_endpoint_down).
Defined.

(** *** C7 *)

(** C7, as stated, fails: the fence strictly inside the generated text is
    removed like the leading and the trailing one. *)
Lemma interior_fence_removed :
  analyze (generated (JSString "<p>a```b</p>")) "issues" (JSString "k") []
  = (Ok "<p>ab</p>", [])
  /\ String.prefix fence "<p>a```b</p>" = false
  /\ contains fence "<p>a```b</p>" = true
  /\ contains fence "<p>ab</p>" = false.
Proof. repeat split; vm_compute; reflexivity. Qed.

Lemma analyze_strips_every_fence_witness :
  analyze (generated fenced) "issues" (JSString "k") []
  = (Ok (strip_fences "```html<p>a```b</p>```"), [])
  /\ strip_fences "```html<p>a```b</p>```" = "<p>ab</p>"
  /\ contains fence (strip_fences "```html<p>a```b</p>```") = false
  /\ strip_fences "<p>ab</p>" = "<p>ab</p>".
Proof.
  destruct (analyze_strips_every_fence World (fetch (generated fenced))
              Number_toString "issues" (JSString "k") "k" [] []
              (generated fenced)
              (match json (generated fenced) with
               | Ok data => data
               | Throw _ => JSUndefined
               end)
              "```html<p>a```b</p>```"
              eq_refl eq_refl eq_refl eq_refl eq_refl)
    as (Hret & Hnone & _).
  { intros H. discriminate H. }
  destruct (analyze_strips_every_fence World (fetch (generated (JSString "<p>ab</p>")))
              Number_toString "issues" (JSString "k") "k" [] []
              (generated (JSString "<p>ab</p>"))
              (match json (generated (JSString "<p>ab</p>")) with
               | Ok data => data
               | Throw _ => JSUndefined
               end)
              "<p>ab</p>"
              eq_refl eq_refl eq_refl eq_refl eq_refl)
    as (_ & _ & Hsame).
  { intros H. discriminate H. }
  split; [exact Hret|]. split; [reflexivity|]. split; [exact Hnone|].
  exact (Hsame eq_refl).
Defined.

(** *** C8 *)

Lemma validation_rejects_witness :
  post refused (JSObject [("apiKey", JSString "k")]) [] = (Ok urls_error, [])
  /\ post refused (JSObject [("urls", JSString "https://example.com");
                             ("apiKey", JSString "k")]) []
     = (Ok urls_error, [])
  /\ post refused (JSObject [("urls", JSArray [example_com])]) []
     = (Ok apiKey_error, [])
  /\ post refused JSUndefined [] = (Ok apiKey_error, []).
Proof.
  split; [|split; [|split]].
  - apply (proj1 (validation_rejects World exec readFileSync JSON_parse
                    (fetch refused) path_join rootPath Number_toString
                    StringToNumber (JSObject [("apiKey", JSString "k")]) []));
      reflexivity.
  - apply (proj1 (validation_rejects World exec readFileSync JSON_parse
                    (fetch refused) path_join rootPath Number_toString
                    StringToNumber
                    (JSObject [("urls", JSString "https://example.com");
                               ("apiKey", JSString "k")]) []));
      reflexivity.
  - apply (proj1 (proj2 (validation_rejects World exec readFileSync JSON_parse
                    (fetch refused) path_join rootPath Number_toString
                    StringToNumber (JSObject [("urls", JSArray [example_com])])
                    []))); reflexivity.
  - apply (proj2 (proj2 (proj2 (validation_rejects World exec readFileSync
                    JSON_parse (fetch refused) path_join rootPath
                    Number_toString StringToNumber JSUndefined []))));
      reflexivity.
Defined.

(** *** C9 *)

Lemma empty_urls_accepted_witness :
  post refused (JSObject [("urls", JSArray []); ("apiKey", JSString "k")]) []
  = (Ok {| code := 200; payload := JSObject [("results", JSArray [])] |}, []).
Proof.
  apply (empty_urls_accepted World exec readFileSync JSON_parse (fetch refused)
           path_join rootPath Number_toString StringToNumber "k" []).
  intros H. discriminate H.
Defined.

(** *** C10 *)

Lemma empty_generation_witness :
  analyze (generated (JSString "")) "issues" (JSString "k") []
  = (Ok failure_text, [])
  /\ analyze (generated JSUndefined) "issues" (JSString "k") []
     = (Ok failure_text, [])
  /\ fst (analyze refused "issues" (JSString "k") [])
     = fst (analyze (generated (JSString "")) "issues" (JSString "k") []).
Proof.
  destruct (empty_generation_reads_as_failure World
              (fetch (generated (JSString ""))) Number_toString "issues"
              (JSString "k") "k" [] [] (generated (JSString ""))
              (match json (generated (JSString "")) with
               | Ok data => data
               | Throw _ => JSUndefined
               end)
              (JSString "") eq_refl eq_refl eq_refl eq_refl eq_refl
              (or_intror eq_refl)) as [Hempty _].
  destruct (empty_generation_reads_as_failure World
              (fetch (generated JSUndefined)) Number_toString "issues"
              (JSString "k") "k" [] [] (generated JSUndefined)
              (match json (generated JSUndefined) with
               | Ok data => data
               | Throw _ => JSUndefined
               end)
              JSUndefined eq_refl eq_refl eq_refl eq_refl eq_refl
              (or_introl eq_refl)) as [Habsent _].
  split; [exact Hempty|]. split; [exact Habsent|]. reflexivity.
Defined.

End Demo.

(** ** The calls made to the outside

    Here the world is the list of the calls made so far to the three
    outside collaborators, and what a call returns is any function of that
    list and of the call's arguments. *)

Module Trace.
Import JS Audit.

Inductive Event : Type :=
| Ran (cmd : string)
| ReadFile (path : string)
| Fetched (url : string) (options : JSValue).

Definition World : Type := list Event.

Section Logged.

Variable run : World -> string -> Result unit.
Variable contents : World -> string -> Result string.
Variable respond : World -> string -> JSValue -> Result FetchResponse.
Variable JSON_parse : string -> Result JSValue.
Variable path_join : string -> string -> string.
Variable rootPath : string.
Variable Number_toString : float -> string.
Variable StringToNumber : string -> float.

Definition exec (cmd : string) : M World unit :=
  fun w => (run w cmd, (w ++ [Ran cmd])%list).

Definition readFileSync (path : string) : M World string :=
  fun w => (contents w path, (w ++ [ReadFile path])%list).

Definition fetch (url : string) (options : JSValue) : M World FetchResponse :=
  fun w => (respond w url options, (w ++ [Fetched url options])%list).

Definition analyze : string -> JSValue -> M World string :=
  analyzeWithAI World fetch Number_toString.

Definition iteration : JSValue -> JSValue -> M World JSValue :=
  audit_url World exec readFileSync JSON_parse fetch path_join rootPath
    Number_toString StringToNumber.

Definition post : JSValue -> M World Response :=
  post_runaudit World exec readFileSync JSON_parse fetch path_join rootPath
    Number_toString StringToNumber.

Definition path_of (target : string) : string :=
  report_path path_join rootPath target.

(** The command line the handler runs for a URL. *)
Definition command (target : string) : string :=
  "lighthouse " ++ target
    ++ " --only-categories=accessibility --quiet --output=json --output-path="
    ++ path_of target
    ++ " --chrome-flags=" ++ dq ++ "--headless" ++ dq
    ++ " --chrome-flags=" ++ dq ++ "--no-sandbox" ++ dq
    ++ " --max-wait-for-load=60000".

(** The calls of one iteration that returns. *)
Definition url_events (key target issuesText : string) : list Event :=
  [Ran (command target);
   ReadFile (path_of target);
   Fetched (generation_url key) (fetch_options Number_toString issuesText)].

Fixpoint batch_events (key : string) (targets texts : list string)
  : list Event :=
  match targets, texts with
  | target :: targets', text :: texts' =>
      (url_events key target text ++ batch_events key targets' texts')%list
  | _, _ => []
  end.

Definition issues_field (r : JSValue) : JSValue := prop r "issues".

Lemma command_is_lighthouse_cmd target :
  lighthouse_cmd target (handler_config (path_of target)) = command target.
Proof. reflexivity. Qed.

Lemma analyze_calls_once issues apiKey key w :
  ToString Number_toString apiKey = Ok key ->
  snd (analyze issues apiKey w)
  = (w ++ [Fetched (generation_url key)
             (fetch_options Number_toString issues)])%list.
Proof.
  intros Hk. unfold analyze, analyzeWithAI, try_catch, analyze_attempt.
  unfold bind at 1. unfold lift at 1. rewrite Hk.
  unfold bind at 1. unfold fetch at 1.
  destruct (respond w (generation_url key)
              (fetch_options Number_toString issues)) as [response|e];
    [|reflexivity].
  destruct (ok response); cbn [negb]; unfold bind, lift, throw, ret.
  - destruct (json response) as [data|e]; [|reflexivity].
    destruct (candidate_text data) as [text|e]; [|reflexivity].
    destruct (replace_receiver (js_or text (JSString failure_text)));
      reflexivity.
  - destruct (json response) as [errorData|e]; [|reflexivity].
    destruct (api_error_message Number_toString response errorData);
      reflexivity.
Qed.

Lemma iteration_calls target apiKey key w r w1 :
  ToString Number_toString apiKey = Ok key ->
  iteration (JSString target) apiKey w = (Ok r, w1) ->
  exists issuesText,
    issues_field r = JSString issuesText
    /\ w1 = (w ++ url_events key target issuesText)%list.
Proof.
  intros Hk H. unfold iteration, audit_url in H.
  apply bind_inv in H. destruct H as ([score issuesText] & w2 & Hs & H).
  apply bind_inv in H. destruct H as (aiFixes & w3 & Ha & H).
  unfold ret in H. inversion H. subst r w3. clear H.
  exists issuesText. split; [reflexivity|].
  pose proof (analyze_calls_once issuesText apiKey key w2 Hk) as Hw.
  unfold analyze in Hw. rewrite Ha in Hw. cbn [snd] in Hw. subst w1.
  unfold audit_summary, runLighthouse in Hs.
  apply bind_inv in Hs. destruct Hs as (t & w4 & Ht & Hs).
  apply lift_inv in Ht. destruct Ht as [Ht ->]. inversion Ht. subst t.
  apply bind_inv in Hs. destruct Hs as (u & w5 & He & Hs).
  unfold exec in He. inversion He. subst w5.
  apply bind_inv in Hs. destruct Hs as (text & w6 & Hr & Hs).
  unfold readFileSync in Hr. inversion Hr. subst w6.
  apply bind_inv in Hs. destruct Hs as (report & w7 & Hp & Hs).
  apply lift_inv in Hp. destruct Hp as [_ ->].
  apply bind_inv in Hs. destruct Hs as (sc & w8 & Hsc & Hs).
  apply lift_inv in Hsc. destruct Hsc as [_ ->].
  apply bind_inv in Hs. destruct Hs as (issues & w9 & Hi & Hs).
  apply lift_inv in Hi. destruct Hi as [_ ->].
  apply bind_inv in Hs. destruct Hs as (tx & w10 & Htx & Hs).
  apply lift_inv in Htx. destruct Htx as [_ ->].
  unfold ret in Hs. inversion Hs. subst.
  unfold url_events. rewrite <- !app_assoc. reflexivity.
Qed.

Lemma loop_calls key apiKey :
  ToString Number_toString apiKey = Ok key ->
  forall targets results w rs w1,
    audit_loop World exec readFileSync JSON_parse fetch path_join rootPath
      Number_toString StringToNumber (map JSString targets) apiKey results w
    = (Ok rs, w1) ->
    exists added texts,
      rs = (results ++ added)%list
      /\ List.length texts = List.length targets
      /\ map issues_field added = map JSString texts
      /\ w1 = (w ++ batch_events key targets texts)%list.
Proof.
  intros Hk. induction targets as [|target targets IH];
    intros results w rs w1 H; cbn [map audit_loop] in H.
  - unfold ret in H. inversion H. exists [], [].
    rewrite !app_nil_r. repeat split.
  - apply bind_inv in H. destruct H as (r & w2 & Hr & H).
    apply (iteration_calls target apiKey key w r w2 Hk) in Hr.
    destruct Hr as (text & Hfield & ->).
    apply IH in H. destruct H as (added & texts & -> & Hlen & Hfields & ->).
    exists (r :: added), (text :: texts).
    rewrite <- !app_assoc. cbn [app map batch_events List.length].
    rewrite Hfield, Hfields, Hlen. repeat split.
Qed.

(** X11.  When a batch of string URLs is answered, with an API key that
    converts to the string [key], the calls made to the outside are, for
    each URL in the order of [urls]: the [lighthouse] command with the
    default categories, flags and time limit and an output path derived
    from the URL; the read of the file at that path; and one call of the
    generation endpoint carrying the text of the issues that the record of
    that URL holds.  There is one record and one text of issues per URL:
    nothing else is called, and no URL is skipped, whatever its score and
    issues are. *)
Theorem calls_follow_urls (body apiKey : JSValue) (key : string)
    (targets : list string) (w w1 : World) (res : Response) :
  prop body "urls" = JSArray (map JSString targets) ->
  prop body "apiKey" = apiKey ->
  truthy apiKey = true ->
  ToString Number_toString apiKey = Ok key ->
  post body w = (Ok res, w1) ->
  exists results texts,
    res = {| code := 200; payload := JSObject [("results", JSArray results)] |}
    /\ List.length results = List.length targets
    /\ List.length texts = List.length targets
    /\ map issues_field results = map JSString texts
    /\ w1 = (w ++ batch_events key targets texts)%list
    /\ List.length (batch_events key targets texts)
       = (3 * List.length targets)%nat.
Proof.
  intros Hurls Hkey Htruthy Hk H.
  assert (Hbody : truthy body = true).
  { destruct body; simpl in Hurls; try discriminate. reflexivity. }
  unfold post, post_runaudit, runaudit, request_inputs, js_or in H.
  simpl in H. rewrite Hbody, Hurls, Hkey, Htruthy in H. simpl in H.
  apply bind_inv in H. destruct H as (rs & w2 & Hloop & H).
  unfold ret in H. inversion H. subst res w2.
  apply (loop_calls key apiKey Hk) in Hloop.
  destruct Hloop as (added & texts & -> & Hlen & Hfields & ->).
  exists added, texts. split; [reflexivity|]. split.
  { rewrite <- Hlen, <- (length_map issues_field added), Hfields.
    apply length_map. }
  split; [exact Hlen|]. split; [exact Hfields|]. split; [reflexivity|].
  clear - Hlen. revert texts Hlen.
  induction targets as [|target targets IH]; intros [|text texts] Hlen;
    try discriminate Hlen; [reflexivity|].
  cbn [batch_events url_events app List.length]. cbn [List.length] in Hlen.
  rewrite (IH texts) by (injection Hlen; auto). lia.
Qed.

End Logged.
End Trace.

(** ** Concrete runs for the further properties *)

Module Coverage.
Import JS Audit.

(** A world of calls in which every command fails. *)
Definition failing_run (w : Trace.World) (cmd : string) : Result unit :=
  Throw (ExternalError "lighthouse exited with an error").

(** A world of calls in which everything succeeds: every file holds
    [Demo.report], and the endpoint answers [Demo.fenced]. *)
Definition run (w : Trace.World) (cmd : string) : Result unit := Ok tt.

Definition contents (w : Trace.World) (path : string) : Result string :=
  Ok path.

Definition respond (w : Trace.World) (url : string) (options : JSValue)
  : Result FetchResponse :=
  Ok (Demo.generated Demo.fenced).

Definition traced_post : JSValue -> M Trace.World Response :=
  Trace.post run contents respond Demo.JSON_parse Demo.path_join
    Demo.rootPath Demo.Number_toString Demo.StringToNumber.

Definition traced_run : Result Response * Trace.World :=
  Eval vm_compute in traced_post (Demo.request Demo.two_urls "k") [].

Definition traced_response : Response :=
  match fst traced_run with
  | Ok res => res
  | Throw _ => urls_error
  end.

(** A batch whose second element is not a string. *)
Definition mixed_urls : list JSValue :=
  [Demo.example_com; JSNumber 5%float; Demo.example_com].

Definition first_run : Result (list JSValue) * Demo.World :=
  Eval vm_compute in
    audit_loop Demo.World Demo.exec Demo.readFileSync Demo.JSON_parse
      (Demo.fetch Demo.refused) Demo.path_join Demo.rootPath
      Demo.Number_toString Demo.StringToNumber [Demo.example_com]
      (JSString "k") [] [].

Definition first_results : list JSValue :=
  match fst first_run with
  | Ok rs => rs
  | Throw _ => []
  end.

(** A check with the score 0, no title and an empty description. *)
Definition untitled : JSValue :=
  JSObject [("id", JSString "x"); ("score", JSNumber 0%float);
            ("description", JSString "")].

Definition untitled_issue : JSValue :=
  Eval vm_compute in
    match issue_of Demo.Number_toString untitled with
    | Ok issue => issue
    | Throw _ => JSUndefined
    end.

(** A report whose checks all pass; the [details] of the first is not what
    the handler expects. *)
Definition passing_report : JSValue :=
  JSObject
    [("categories", JSObject [("accessibility", JSObject [("score", JSNull)])]);
     ("audits",
      JSObject
        [("color-contrast",
          JSObject [("score", JSNumber 1%float);
                    ("details", JSObject [("items", JSString "none")])]);
         ("bypass", JSObject [("score", JSNull)])])].

Definition passing_audits : list JSValue :=
  Eval vm_compute in
    match Object_values (prop passing_report "audits") with
    | Ok all => all
    | Throw _ => []
    end.

Lemma scheme_removed_witness :
  report_filename "view-source:https://a.com/x" = "view-source:a.com_x"
  /\ report_filename "view-source:http://a.com/x" = "view-source:a.com_x"
  /\ report_filename "view-source:a.com/x" = "view-source:a.com_x".
Proof.
  destruct (scheme_removed_where_it_occurs "view-source:" "a.com/x" eq_refl)
    as (H1 & H2 & H3).
  split; [exact H1|]. split; [exact H2|]. exact (H3 eq_refl eq_refl).
Defined.

Lemma analyze_on_success_witness :
  Demo.analyze (Demo.generated (JSNumber 5%float)) "issues" (JSString "k") []
  = (Ok failure_text, [])
  /\ Demo.analyze (Demo.generated Demo.fenced) "issues" (JSString "k") []
     = (Ok "<p>ab</p>", []).
Proof.
  split.
  - apply (analyze_on_success Demo.World
             (Demo.fetch (Demo.generated (JSNumber 5%float)))
             Demo.Number_toString "issues" (JSString "k") "k" [] []
             (Demo.generated (JSNumber 5%float))); reflexivity.
  - apply (analyze_on_success Demo.World
             (Demo.fetch (Demo.generated Demo.fenced))
             Demo.Number_toString "issues" (JSString "k") "k" [] []
             (Demo.generated Demo.fenced)); reflexivity.
Defined.

Definition part_one : JSValue := JSObject [("text", JSString "one")].
Definition part_two : JSValue := JSObject [("text", JSString "two")].
Definition content_one : JSValue :=
  JSObject [("parts", JSArray [part_one; part_two])].
Definition candidate_one : JSValue := JSObject [("content", content_one)].
Definition candidate_two : JSValue := JSObject [("content", JSNull)].

Lemma candidate_text_witness :
  candidate_text
    (JSObject [("candidates", JSArray [candidate_one; candidate_two])])
  = Ok (JSString "one")
  /\ candidate_text (JSObject [("candidates", JSArray [])]) = Ok JSUndefined
  /\ candidate_text (JSObject [("error", JSString "quota")]) = Throw TypeError.
Proof.
  split; [|split].
  - exact (proj1 (candidate_text_cases
                    (JSObject
                       [("candidates", JSArray [candidate_one; candidate_two])]))
             candidate_one [candidate_two] content_one part_one [part_two]
             eq_refl eq_refl eq_refl eq_refl).
  - apply (proj1 (proj2 (candidate_text_cases _))). reflexivity.
  - apply (proj1 (proj2 (proj2 (proj2 (proj2 (candidate_text_cases _)))))).
    reflexivity.
Defined.

Lemma answers_witness :
  (Demo.batch_response = urls_error /\ snd Demo.batch_run = [])
  \/ (Demo.batch_response = apiKey_error /\ snd Demo.batch_run = [])
  \/ exists results,
       Demo.batch_response
       = {| code := 200; payload := JSObject [("results", JSArray results)] |}.
Proof.
  apply (answers_are_400_or_200 Demo.World Demo.exec Demo.readFileSync
           Demo.JSON_parse (Demo.fetch (Demo.generated Demo.fenced))
           Demo.path_join Demo.rootPath Demo.Number_toString
           Demo.StringToNumber (Demo.request Demo.two_urls "k") []
           (snd Demo.batch_run) Demo.batch_response).
  vm_compute. reflexivity.
Defined.

Lemma batch_stops_witness :
  Demo.post Demo.refused
    (JSObject [("urls", JSArray mixed_urls); ("apiKey", JSString "k")]) []
  = (Throw TypeError, snd first_run).
Proof.
  apply (batch_stops_at_first_failure Demo.World Demo.exec Demo.readFileSync
           Demo.JSON_parse (Demo.fetch Demo.refused) Demo.path_join
           Demo.rootPath Demo.Number_toString Demo.StringToNumber
           (JSObject [("urls", JSArray mixed_urls); ("apiKey", JSString "k")])
           (JSString "k") [Demo.example_com] [Demo.example_com]
           (JSNumber 5%float) first_results [] (snd first_run)
           (snd first_run) TypeError);
    vm_compute; reflexivity.
Defined.

Lemma iteration_stops_witness :
  audit_url Demo.World Demo.exec Demo.readFileSync Demo.JSON_parse
    (Demo.fetch Demo.refused) Demo.path_join Demo.rootPath
    Demo.Number_toString Demo.StringToNumber (JSNumber 5%float)
    (JSString "k") [] = (Throw TypeError, [])
  /\ Trace.iteration failing_run contents respond Demo.JSON_parse
       Demo.path_join Demo.rootPath Demo.Number_toString
       Demo.StringToNumber Demo.example_com (JSString "k") []
     = (Throw (ExternalError "lighthouse exited with an error"),
        [Trace.Ran (Trace.command Demo.path_join Demo.rootPath
                      "https://example.com")]).
Proof.
  split.
  - apply (proj1 (iteration_stops_at_first_failing_step Demo.World Demo.exec
                    Demo.readFileSync Demo.JSON_parse
                    (Demo.fetch Demo.refused) Demo.path_join Demo.rootPath
                    Demo.Number_toString Demo.StringToNumber
                    (JSNumber 5%float) (JSString "k") [])).
    reflexivity.
  - apply (proj1 (proj2 (iteration_stops_at_first_failing_step Trace.World
                    (Trace.exec failing_run) (Trace.readFileSync contents)
                    Demo.JSON_parse (Trace.fetch respond) Demo.path_join
                    Demo.rootPath Demo.Number_toString Demo.StringToNumber
                    Demo.example_com (JSString "k") [])))
      with (target := "https://example.com"); reflexivity.
Defined.

Lemma calls_follow_urls_witness :
  exists results texts,
    traced_response
    = {| code := 200; payload := JSObject [("results", JSArray results)] |}
    /\ List.length results = List.length Demo.two_urls
    /\ List.length texts = List.length Demo.two_urls
    /\ map Trace.issues_field results = map JSString texts
    /\ snd traced_run
       = ([] ++ Trace.batch_events Demo.path_join Demo.rootPath
                  Demo.Number_toString "k" Demo.two_urls texts)%list
    /\ List.length
         (Trace.batch_events Demo.path_join Demo.rootPath
            Demo.Number_toString "k" Demo.two_urls texts)
       = (3 * List.length Demo.two_urls)%nat.
Proof.
  apply (Trace.calls_follow_urls run contents respond Demo.JSON_parse
           Demo.path_join Demo.rootPath Demo.Number_toString
           Demo.StringToNumber (Demo.request Demo.two_urls "k")
           (JSString "k") "k" Demo.two_urls [] (snd traced_run)
           traced_response); vm_compute; reflexivity.
Defined.

Lemma missing_title_witness :
  issue_text Demo.Number_toString (0, untitled_issue)
  = Ok "[1]: No title - No description".
Proof.
  apply (proj2 (proj2 (missing_title_and_description Demo.Number_toString 0
                         untitled untitled_issue eq_refl))); reflexivity.
Defined.








Lemma no_failing_check_witness :
  issues_of Demo.Number_toString passing_report = Ok []
  /\ rbind (issues_of Demo.Number_toString passing_report)
           (issues_text Demo.Number_toString) = Ok "".
Proof.
  apply (no_failing_check_no_text Demo.Number_toString passing_report
           passing_audits eq_refl eq_refl).
  repeat constructor.
Defined.

Lemma score_is_a_number_witness :
  exists x, JSNumber 90%float = JSNumber x /\ PrimFloat.is_nan x = false.
Proof.
  apply (score_is_a_number Demo.Number_toString Demo.StringToNumber
           Demo.report (JSNumber 90%float)).
  reflexivity.
Defined.

Lemma score_of_null_witness :
  score_of Demo.Number_toString Demo.StringToNumber passing_report
  = Ok (JSNumber 0%float)
  /\ score_of Demo.Number_toString Demo.StringToNumber
       (Demo.report_with (JSBool true)) = Ok (JSNumber 100%float).
Proof.
  split.
  - apply (proj1 (score_of_null_and_booleans Demo.Number_toString
                    Demo.StringToNumber passing_report)).
    reflexivity.
  - apply (proj2 (proj2 (score_of_null_and_booleans Demo.Number_toString
                           Demo.StringToNumber
                           (Demo.report_with (JSBool true))))).
    reflexivity.
Defined.

End Coverage.
